(** * The code-review assistant: a shallow embedding of [src/index.tsx]

    The file embeds the [App] component of the repository: its state
    (the [useState] cells), the upload handler [handleFileChange], the
    asynchronous [analyzeCode] and the enabling condition of the button
    that triggers it.  The JavaScript built-ins the component calls
    ([String.prototype.trim], [split], [toLowerCase], [JSON.parse] with the
    rounding of its numbers to binary64, property lookup on an object
    literal, a [useState] setter) are embedded next to it, following
    ECMA-262 and ECMA-404, and so is what the component renders.  The page
    is then a transition system over the events it reacts to, a re-render
    being one of them: a handler runs with the state of the render that
    created it. *)

From Stdlib Require Import List NArith ZArith Bool String Ascii Lia.
Import ListNotations.

(** ** JavaScript strings

    A JavaScript string is a sequence of UTF-16 code units.  A code unit is
    kept as a number in [N]; nothing below relies on the bound [< 65536]. *)

Module JSString.

Definition codeunit := N.
Definition str := list codeunit.

(** A literal of the source, written as a Rocq string of ASCII characters. *)
Definition js (s : string) : str := map N_of_ascii (list_ascii_of_string s).

(** The same, with every apostrophe standing for a double quote (code unit
    34): JSON texts are written this way below. *)
Definition jq (s : string) : str :=
  map (fun c => if N.eqb c 39 then 34%N else c) (js s).

Definition LF : codeunit := 10%N.
Definition nl : str := [LF].

Fixpoint str_eqb (a b : str) : bool :=
  match a, b with
  | [], [] => true
  | x :: a', y :: b' => N.eqb x y && str_eqb a' b'
  | _, _ => false
  end.

(** [WhiteSpace] and [LineTerminator] of ECMA-262: the code units that
    [String.prototype.trim] removes from both ends. *)
Definition isWhiteSpace (c : codeunit) : bool :=
  match c with
  | 9 | 10 | 11 | 12 | 13 | 32 | 160 => true
  | 5760 | 8232 | 8233 | 8239 | 8287 | 12288 | 65279 => true
  | _ => N.leb 8192 c && N.leb c 8202
  end%N.

Fixpoint trimStart (s : str) : str :=
  match s with
  | [] => []
  | c :: r => if isWhiteSpace c then trimStart r else s
  end.

Definition trimEnd (s : str) : str := rev (trimStart (rev s)).

Definition trim (s : str) : str := trimEnd (trimStart s).

(** [s.split(sep)] for a one-unit separator: never the empty array. *)
Fixpoint split (sep : codeunit) (s : str) : list str :=
  match s with
  | [] => [[]]
  | c :: r =>
      if N.eqb c sep then [] :: split sep r
      else match split sep r with
           | seg :: segs => (c :: seg) :: segs
           | [] => [[c]]
           end
  end.

(** [toLowerCase] on one code unit.  The ASCII and Latin-1 capitals are
    mapped as Unicode maps them.  The case table of the code units from 256
    up is not reproduced: they are left as they are.  No character outside
    ASCII lower-cases to a string of the letters a-z other than U+212A
    (to k), and no property name looked up below contains a k, so every
    lookup keyed by a lower-cased string has the outcome it has in
    JavaScript. *)
Definition lowerUnit (c : codeunit) : codeunit :=
  if (N.leb 65 c && N.leb c 90)%bool then (c + 32)%N
  else if (N.leb 192 c && N.leb c 222 && negb (N.eqb c 215))%bool
       then (c + 32)%N
  else c.

Definition toLowerCase (s : str) : str := map lowerUnit s.

End JSString.

Export JSString.

(** ** Numbers

    A JavaScript number is an IEEE 754 binary64 value.  A finite one that is
    not a zero is kept as [m * 2 ^ e] with [m] odd, which is a unique way of
    writing it. *)

Module Binary64.

Inductive number :=
| NaN
| Infinity (negative : bool)
| Zero (negative : bool)
| Finite (negative : bool) (m : positive) (e : Z).

(** [m * 2 ^ e] with the factors of two moved to the exponent. *)
Fixpoint strip (m : positive) (e : Z) : positive * Z :=
  match m with
  | xO m' => strip m' (e + 1)%Z
  | _ => (m, e)
  end.

(** The integer part of the binary logarithm of [p / q]. *)
Definition ilog2 (p q : positive) : Z :=
  let k := (Z.log2 (Zpos p) - Z.log2 (Zpos q))%Z in
  if (Zpos q * 2 ^ Z.max 0 k <=? Zpos p * 2 ^ Z.max 0 (- k))%Z then k
  else (k - 1)%Z.

(** The number value of the rational [p / q] (roundTiesToEven): with [e]
    the exponent of the last binary place, at least that of the subnormal
    numbers, the quotient [p / (q * 2 ^ e)] is rounded to the nearest
    integer, to the even one at a tie; a result of [2 ^ 1024] or more is an
    infinity. *)
Definition round (negative : bool) (p q : positive) : number :=
  let e := Z.max (-1074) (ilog2 p q - 52) in
  let num := (Zpos p * 2 ^ Z.max 0 (- e))%Z in
  let den := (Zpos q * 2 ^ Z.max 0 e)%Z in
  let n := (num / den)%Z in
  let r := (num mod den)%Z in
  let up := ((den <? 2 * r)%Z || ((den =? 2 * r)%Z && Z.odd n))%bool in
  match (if up then n + 1 else n)%Z with
  | Zpos m =>
      if (1024 <=? Z.log2 (Zpos m) + e)%Z then Infinity negative
      else let (m', e') := strip m e in Finite negative m' e'
  | _ => Zero negative
  end.

(** The number value of the decimal [m * 10 ^ e], [m] not negative. *)
Definition ofDecimal (negative : bool) (m e : Z) : number :=
  match (m * 10 ^ Z.max 0 e)%Z, (10 ^ Z.max 0 (- e))%Z with
  | Zpos p, Zpos q => round negative p q
  | _, _ => Zero negative
  end.

Definition ofZ (z : Z) : number := ofDecimal (z <? 0)%Z (Z.abs z) 0.

(** [n > k] for a whole constant [k]: false on [NaN]. *)
Definition exceeds (n : number) (k : Z) : bool :=
  match n with
  | NaN => false
  | Infinity negative => negb negative
  | Zero _ => (k <? 0)%Z
  | Finite negative m e =>
      (k * 2 ^ Z.max 0 (- e)
       <? (if negative then Zneg m else Zpos m) * 2 ^ Z.max 0 e)%Z
  end.

(** A whole number: a zero, or a finite number without binary places
    ([m] being odd, these are the finite numbers with [e] not negative). *)
Definition isWhole (n : number) : bool :=
  match n with
  | Zero _ => true
  | Finite _ _ e => (0 <=? e)%Z
  | _ => false
  end.

End Binary64.

Export Binary64.

(** ** JSON values and [JSON.parse] *)

Module JSON.

Unset Elimination Schemes.

Inductive value :=
| JNull
| JBool (b : bool)
| JNumber (n : number)
| JString (s : str)
| JArray (items : list value)
| JObject (props : list (str * value)).

Set Elimination Schemes.

Definition JInt (z : Z) : value := JNumber (ofZ z).

(** [CreateDataProperty] on an object under construction: a key that is
    already present keeps its place and takes the new value.  (JavaScript
    enumerates array-index keys first; enumeration order is not used here.) *)
Fixpoint obj_set (props : list (str * value)) (k : str) (v : value)
  : list (str * value) :=
  match props with
  | [] => [(k, v)]
  | (k', v') :: rest =>
      if str_eqb k' k then (k', v) :: rest else (k', v') :: obj_set rest k v
  end.

Definition mk_object (members : list (str * value)) : value :=
  JObject (fold_left (fun o kv => obj_set o (fst kv) (snd kv)) members []).

(** Own-property read on a parsed value: [Some] for a present key. *)
Fixpoint obj_get (props : list (str * value)) (k : str) : option value :=
  match props with
  | [] => None
  | (k', v) :: rest => if str_eqb k' k then Some v else obj_get rest k
  end.

(** *** Lexical helpers *)

(** JSON white space is narrower than what [trim] removes. *)
Definition isJSONSpace (c : codeunit) : bool :=
  match c with
  | 9 | 10 | 13 | 32 => true
  | _ => false
  end%N.

Fixpoint skip_ws (s : str) : str :=
  match s with
  | [] => []
  | c :: r => if isJSONSpace c then skip_ws r else s
  end.

Fixpoint strip_prefix (p s : str) : option str :=
  match p, s with
  | [], _ => Some s
  | x :: p', y :: s' => if N.eqb x y then strip_prefix p' s' else None
  | _ :: _, [] => None
  end.

Definition isDigit (c : codeunit) : bool := N.leb 48 c && N.leb c 57.

Fixpoint span_digits (s : str) : list codeunit * str :=
  match s with
  | [] => ([], [])
  | c :: r =>
      if isDigit c then let (ds, rest) := span_digits r in (c :: ds, rest)
      else ([], s)
  end.

Definition digits_value (ds : list codeunit) : Z :=
  fold_left (fun acc d => 10 * acc + (Z.of_N d - 48))%Z ds 0%Z.

Definition hex_digit (c : codeunit) : option N :=
  if isDigit c then Some (c - 48)%N
  else if (N.leb 65 c && N.leb c 70)%bool then Some (c - 55)%N
  else if (N.leb 97 c && N.leb c 102)%bool then Some (c - 87)%N
  else None.

Definition hex4 (a b c d : codeunit) : option codeunit :=
  match hex_digit a, hex_digit b, hex_digit c, hex_digit d with
  | Some x, Some y, Some z, Some w => Some (((x * 16 + y) * 16 + z) * 16 + w)%N
  | _, _, _, _ => None
  end.

(** The single-character escapes of a JSON string. *)
Definition unescape (e : codeunit) : option codeunit :=
  match e with
  | 34 => Some 34   (* quote *)
  | 92 => Some 92   (* backslash *)
  | 47 => Some 47   (* slash *)
  | 98 => Some 8    (* b *)
  | 102 => Some 12  (* f *)
  | 110 => Some 10  (* n *)
  | 114 => Some 13  (* r *)
  | 116 => Some 9   (* t *)
  | _ => None
  end%N.

(** The characters of a string literal, after its opening quote, up to
    and including the closing quote. *)
Fixpoint parse_chars (s : str) : option (str * str) :=
  match s with
  | [] => None
  | c :: r =>
      if N.eqb c 34 then Some ([], r)
      else if N.eqb c 92 then
        match r with
        | [] => None
        | e :: r' =>
            if N.eqb e 117 then
              match r' with
              | h1 :: h2 :: h3 :: h4 :: r'' =>
                  match hex4 h1 h2 h3 h4, parse_chars r'' with
                  | Some u, Some (t, rest) => Some (u :: t, rest)
                  | _, _ => None
                  end
              | _ => None
              end
            else
              match unescape e, parse_chars r' with
              | Some u, Some (t, rest) => Some (u :: t, rest)
              | _, _ => None
              end
        end
      else if N.ltb c 32 then None
      else match parse_chars r with
           | Some (t, rest) => Some (c :: t, rest)
           | None => None
           end
  end.

(** *** Numbers

    The literal is read as the decimal it denotes, [m * 10 ^ e] with its
    sign, and the result is the number value of that decimal: the nearest
    binary64 number.  So [9007199254740993] reads as [9007199254740992],
    [1e-400] as [0], [1e400] as an infinity and [-0] as the negative zero. *)

(** int: a single 0, or a non-empty run of digits not starting with 0. *)
Definition parse_int (s : str) : option (list codeunit * str) :=
  match s with
  | c :: r =>
      if N.eqb c 48 then Some ([c], r)
      else if isDigit c then Some (span_digits s)
      else None
  | [] => None
  end.

Definition parse_frac (s : str) : option (list codeunit * str) :=
  match s with
  | c :: r =>
      if N.eqb c 46 then
        match span_digits r with
        | ([], _) => None
        | (ds, rest) => Some (ds, rest)
        end
      else Some ([], s)
  | [] => Some ([], s)
  end.

Definition parse_exp_digits (neg : bool) (s : str) : option (Z * str) :=
  match span_digits s with
  | ([], _) => None
  | (ds, rest) =>
      Some ((if neg then - digits_value ds else digits_value ds)%Z, rest)
  end.

Definition parse_exp (s : str) : option (Z * str) :=
  match s with
  | c :: r =>
      if (N.eqb c 101 || N.eqb c 69)%bool then
        match r with
        | x :: r' =>
            if N.eqb x 43 then parse_exp_digits false r'
            else if N.eqb x 45 then parse_exp_digits true r'
            else parse_exp_digits false r
        | [] => None
        end
      else Some (0%Z, s)
  | [] => Some (0%Z, s)
  end.

Definition parse_unsigned (neg : bool) (s : str) : option (number * str) :=
  match parse_int s with
  | None => None
  | Some (ip, s1) =>
      match parse_frac s1 with
      | None => None
      | Some (fp, s2) =>
          match parse_exp s2 with
          | None => None
          | Some (e, s3) =>
              Some (ofDecimal neg (digits_value (ip ++ fp))
                              (e - Z.of_nat (List.length fp)), s3)
          end
      end
  end.

Definition parse_number (s : str) : option (number * str) :=
  match s with
  | c :: r => if N.eqb c 45 then parse_unsigned true r
              else parse_unsigned false s
  | [] => None
  end.

(** *** Values

    Recursive descent.  The three functions recurse on a counter that each
    call lowers by one; every call made with a positive counter also consumes
    a code unit of the text before it calls again, so the length of the text
    (plus one) is always enough. *)
Fixpoint parse_value (fuel : nat) (s : str) {struct fuel}
  : option (value * str) :=
  match fuel with
  | O => None
  | S n =>
      match s with
      | [] => None
      | c :: r =>
          if N.eqb c 123 then                       (* { *)
            match skip_ws r with
            | [] => None
            | c' :: r' =>
                if N.eqb c' 125 then Some (JObject [], r')
                else match parse_members n (skip_ws r) with
                     | Some (ms, rest) => Some (mk_object ms, rest)
                     | None => None
                     end
            end
          else if N.eqb c 91 then                   (* [ *)
            match skip_ws r with
            | [] => None
            | c' :: r' =>
                if N.eqb c' 93 then Some (JArray [], r')
                else match parse_elements n r with
                     | Some (vs, rest) => Some (JArray vs, rest)
                     | None => None
                     end
            end
          else if N.eqb c 34 then                   (* string *)
            match parse_chars r with
            | Some (t, rest) => Some (JString t, rest)
            | None => None
            end
          else if N.eqb c 116 then                  (* t *)
            option_map (fun rest => (JBool true, rest))
                       (strip_prefix (js "true") s)
          else if N.eqb c 102 then                  (* f *)
            option_map (fun rest => (JBool false, rest))
                       (strip_prefix (js "false") s)
          else if N.eqb c 110 then                  (* n *)
            option_map (fun rest => (JNull, rest))
                       (strip_prefix (js "null") s)
          else
            match parse_number s with
            | Some (d, rest) => Some (JNumber d, rest)
            | None => None
            end
      end
  end

(** elements: element (, element)* followed by the closing bracket. *)
with parse_elements (fuel : nat) (s : str) {struct fuel}
  : option (list value * str) :=
  match fuel with
  | O => None
  | S n =>
      match parse_value n (skip_ws s) with
      | None => None
      | Some (v, rest) =>
          match skip_ws rest with
          | [] => None
          | c :: r =>
              if N.eqb c 44 then
                match parse_elements n r with
                | Some (vs, rest') => Some (v :: vs, rest')
                | None => None
                end
              else if N.eqb c 93 then Some ([v], r)
              else None
          end
      end
  end

(** members: member (, member)* followed by the closing brace; the text
    starts at the opening quote of a key. *)
with parse_members (fuel : nat) (s : str) {struct fuel}
  : option (list (str * value) * str) :=
  match fuel with
  | O => None
  | S n =>
      match s with
      | [] => None
      | q :: r =>
          if negb (N.eqb q 34) then None
          else
            match parse_chars r with
            | None => None
            | Some (k, s1) =>
                match skip_ws s1 with
                | [] => None
                | c :: s2 =>
                    if negb (N.eqb c 58) then None
                    else
                      match parse_value n (skip_ws s2) with
                      | None => None
                      | Some (v, s3) =>
                          match skip_ws s3 with
                          | [] => None
                          | c' :: s4 =>
                              if N.eqb c' 44 then
                                match parse_members n (skip_ws s4) with
                                | Some (ms, rest) => Some ((k, v) :: ms, rest)
                                | None => None
                                end
                              else if N.eqb c' 125 then Some ([(k, v)], s4)
                              else None
                          end
                      end
                end
            end
      end
  end.

(** [JSON.parse(text)]: [None] stands for the [SyntaxError] it throws.
    What an engine adds to ECMA-262, a bound on memory or on the depth of
    nesting, is not modelled. *)
Definition parse (text : str) : option value :=
  match parse_value (S (List.length text)) (skip_ws text) with
  | Some (v, rest) =>
      match skip_ws rest with
      | [] => Some v
      | _ :: _ => None
      end
  | None => None
  end.

End JSON.

Import JSON.

(** ** Helper types *)

(** The helper types of the source: a [number] field holds a number. *)
Record AnalysisIssue := mkIssue {
  line : number;
  issue : str;
  suggestion : str
}.

Record AnalysisResult := mkResult {
  score : number;
  summary : str;
  issues : list AnalysisIssue;
  optimizedCode : str
}.

(** ** The [App] component *)

Module App.

Inductive Theme := Dark | Light.

(** *** The [language] cell

    [useState<string>]: every writer but one stores a string.  The upload
    handler stores [langMap[extension]], and [langMap] is an object literal,
    so a key it does not own is looked up on [Object.prototype].  Two of the
    names found there survive [toLowerCase]: [constructor] (the function
    [Object]) and [__proto__] (the object [Object.prototype]); the other
    properties of [Object.prototype] have a capital in their names.  Hence
    the values the cell can hold: *)
Inductive LangValue :=
| LString (s : str)          (* a primitive string *)
| LStringObject (s : str)    (* the wrapper [Object(s)] of a string *)
| LObjectPrototype.          (* [Object.prototype] itself *)

(** [ToString], as a template literal applies it. *)
Definition langToString (l : LangValue) : str :=
  match l with
  | LString s => s
  | LStringObject s => s
  | LObjectPrototype => js "[object Object]"
  end.

(** What a read [langMap[key]] can return. *)
Inductive Looked :=
| Own (v : str)              (* a string of the table *)
| ObjectConstructor          (* inherited: the function [Object] *)
| ObjectPrototype            (* inherited: [Object.prototype] *)
| Undefined.

Definition langMap : list (str * str) :=
  [ (js "js", js "javascript");
    (js "py", js "python");
    (js "ts", js "typescript");
    (js "java", js "java");
    (js "cs", js "csharp");
    (js "cpp", js "cpp");
    (js "go", js "go");
    (js "rs", js "rust") ].

Fixpoint own_get (m : list (str * str)) (k : str) : option str :=
  match m with
  | [] => None
  | (k', v) :: rest => if str_eqb k' k then Some v else own_get rest k
  end.

(** [langMap[key]] for a lower-cased key: own property first, then the
    prototype. *)
Definition langMap_get (key : str) : Looked :=
  match own_get langMap key with
  | Some v => Own v
  | None =>
      if str_eqb key (js "constructor") then ObjectConstructor
      else if str_eqb key (js "__proto__") then ObjectPrototype
      else Undefined
  end.

(** Truthiness of a looked-up value. *)
Definition truthy (v : Looked) : bool :=
  match v with
  | Own [] => false
  | Own (_ :: _) => true
  | ObjectConstructor => true
  | ObjectPrototype => true
  | Undefined => false
  end.

(** The setter of a [useState] cell: a function argument is an updater and
    is applied to the previous state, anything else is the next state.
    [Object(x)] wraps a primitive string and returns an object as it is. *)
Definition setLanguage_looked (v : Looked) (prev : LangValue) : LangValue :=
  match v with
  | Own x => LString x
  | ObjectConstructor =>
      match prev with
      | LString x => LStringObject x
      | other => other
      end
  | ObjectPrototype => LObjectPrototype
  | Undefined => prev          (* never passed: the guard is falsy *)
  end.

(** *** State *)

Record AppState := mkState {
  code : str;
  language : LangValue;
  isLoading : bool;
  result : value;              (* [AnalysisResult | null]; null is [JNull] *)
  error : option str;          (* [string | null] *)
  theme : Theme
}.

Definition initial : AppState :=
  mkState [] (LString (js "javascript")) false JNull None Dark.

Definition setCode (v : str) (s : AppState) : AppState :=
  mkState v (language s) (isLoading s) (result s) (error s) (theme s).
Definition setLanguage (v : LangValue) (s : AppState) : AppState :=
  mkState (code s) v (isLoading s) (result s) (error s) (theme s).
Definition setIsLoading (v : bool) (s : AppState) : AppState :=
  mkState (code s) (language s) v (result s) (error s) (theme s).
Definition setResult (v : value) (s : AppState) : AppState :=
  mkState (code s) (language s) (isLoading s) v (error s) (theme s).
Definition setError (v : option str) (s : AppState) : AppState :=
  mkState (code s) (language s) (isLoading s) (result s) v (theme s).
Definition setTheme (v : Theme) (s : AppState) : AppState :=
  mkState (code s) (language s) (isLoading s) (result s) (error s) v.

Definition toggleTheme (s : AppState) : AppState :=
  setTheme (match theme s with Dark => Light | Light => Dark end) s.

(** *** File upload *)

(** [file.name.split('.').pop()?.toLowerCase()] *)
Definition extension (name : str) : str :=
  toLowerCase (last (split 46%N name) []).

(** The synchronous part of [handleFileChange]; [None] is an event with no
    file.  Reading the file is asynchronous: see [readerOnload] and
    [readerOnerror]. *)
Definition handleFileChange (file : option str) (s : AppState) : AppState :=
  match file with
  | None => s
  | Some name =>
      let ext := extension name in
      match ext with
      | [] => s
      | _ :: _ =>
          if truthy (langMap_get ext)
          then setLanguage (setLanguage_looked (langMap_get ext) (language s)) s
          else s
      end
  end.

(** [reader.onload]: a result that is not a string is ignored. *)
Definition readerOnload (text : option str) (s : AppState) : AppState :=
  match text with
  | Some t => setCode t s
  | None => s
  end.

Definition fileReadMessage : str := js "Failed to read the uploaded file.".

Definition readerOnerror (s : AppState) : AppState :=
  setError (Some fileReadMessage) s.

(** *** The request *)

Inductive SchemaType := TInteger | TString | TArray | TObject.

(** The shape of a [responseSchema] node. *)
#[warnings="-register-all"]
Inductive Schema :=
| mkSchema (type : SchemaType) (description : option str)
           (items : option Schema) (properties : list (str * Schema))
           (required : list str).

Definition issueSchema : Schema :=
  mkSchema TObject None None
    [ (js "line",
       mkSchema TInteger (Some (js "The line number where the issue occurs."))
                None [] []);
      (js "issue",
       mkSchema TString (Some (js "A short description of the issue."))
                None [] []);
      (js "suggestion",
       mkSchema TString
                (Some (js "A concrete suggestion for how to fix the issue."))
                None [] []) ]
    [ js "line"; js "issue"; js "suggestion" ].

Definition analysisSchema : Schema :=
  mkSchema TObject None None
    [ (js "score",
       mkSchema TInteger (Some (js "Overall code quality score from 0 to 100."))
                None [] []);
      (js "summary",
       mkSchema TString
                (Some (js "A brief summary of the code quality and key findings."))
                None [] []);
      (js "issues",
       mkSchema TArray (Some (js "A list of issues found in the code."))
                (Some issueSchema) [] []);
      (js "optimizedCode",
       mkSchema TString
                (Some (js "An improved and optimized version of the entire code snippet."))
                None [] []) ]
    [ js "score"; js "summary"; js "issues"; js "optimizedCode" ].

(** The template literal [prompt]: its text with [${language}] and
    [${code}] substituted, line for line as in the source. *)
Definition prompt (language code : str) : str :=
  nl
  ++ js "        You are an expert code reviewer. Analyze the following "
  ++ language
  ++ js " code for errors, code smells, performance issues, and best practice violations. Provide:"
  ++ nl
  ++ js "        1. An overall code quality score from 0 to 100." ++ nl
  ++ js "        2. A list of specific issues found, including the line number, a description of the issue, and a suggested fix."
  ++ nl
  ++ js "        3. An optimized version of the entire code block." ++ nl
  ++ js "        4. A summary of the findings in plain English." ++ nl
  ++ nl
  ++ js "        Code to review:" ++ nl
  ++ js "        ```" ++ language ++ nl
  ++ js "        " ++ code ++ nl
  ++ js "        ```" ++ nl
  ++ js "      ".

Record Request := mkRequest {
  model : str;
  contents : str;
  responseMimeType : str;
  responseSchema : Schema
}.

Definition generateContentRequest (s : AppState) : Request :=
  mkRequest (js "gemini-2.5-pro")
            (prompt (langToString (language s)) (code s))
            (js "application/json")
            analysisSchema.

(** *** The adapter

    How a call [ai.models.generateContent] ends: the promise rejects, or it
    resolves with a response whose [text] is a string or is undefined. *)
Inductive Outcome :=
| Rejected
| Fulfilled (text : option str).

(** A stub of the client library: whether [new GoogleGenAI] returns, and
    how a call ends. *)
Record Adapter := mkAdapter {
  constructs : bool;
  generateContent : Request -> Outcome
}.

(** *** [analyzeCode] *)

Definition emptyInputMessage : str := js "Please enter some code to analyze.".

Definition analysisFailedMessage : str :=
  js "An error occurred while analyzing the code. Please check your API key and try again.".

(** [!code.trim()] *)
Definition blank (c : str) : bool :=
  match trim c with
  | [] => true
  | _ :: _ => false
  end.

(** The [catch] and [finally] blocks. *)
Definition onCatch (s : AppState) : AppState :=
  setError (Some analysisFailedMessage) s.

Definition onFinally (s : AppState) : AppState := setIsLoading false s.

(** From the call to the [await]: the state it leaves and the request it
    sends, if it sends one.  [analyzeCode] is a closure of the render that
    created it: the [code] and the [language] it reads are those of that
    render, [r], while its setters act on the cells as they are, [s].
    [clientOk] tells whether [new GoogleGenAI] returns; when it throws,
    [catch] and [finally] run at once. *)
Definition analyzeCode_begin_from (r : AppState) (clientOk : bool)
           (s : AppState) : AppState * option Request :=
  if blank (code r) then (setError (Some emptyInputMessage) s, None)
  else
    let s1 := setError None (setResult JNull (setIsLoading true s)) in
    if clientOk then (s1, Some (generateContentRequest r))
    else (onFinally (onCatch s1), None).

(** The same, called from the render of the current state. *)
Definition analyzeCode_begin (clientOk : bool) (s : AppState)
  : AppState * option Request :=
  analyzeCode_begin_from s clientOk s.

(** From the [await] to the end, on the state found when the promise
    settles.  [response.text.trim()] throws on an undefined text and
    [JSON.parse] throws on a text that is not JSON; both land in [catch]. *)
Definition analyzeCode_resume (o : Outcome) (s : AppState) : AppState :=
  match o with
  | Rejected => onFinally (onCatch s)
  | Fulfilled None => onFinally (onCatch s)
  | Fulfilled (Some text) =>
      match JSON.parse (trim text) with
      | Some parsedResult => onFinally (setResult parsedResult s)
      | None => onFinally (onCatch s)
      end
  end.

(** A whole run against a stub adapter, nothing else happening meanwhile:
    the final state and the requests the adapter received. *)
Definition analyzeCode (a : Adapter) (s : AppState)
  : AppState * list Request :=
  match analyzeCode_begin (constructs a) s with
  | (s1, None) => (s1, [])
  | (s1, Some req) => (analyzeCode_resume (generateContent a req) s1, [req])
  end.

(** The button that calls [analyzeCode] carries
    [disabled={isLoading || !code.trim()}]. *)
Definition analyzeDisabled (s : AppState) : bool :=
  isLoading s || blank (code s).

End App.

Import App.

(** ** What the component renders

    The JSX of [App], as far as it depends on the state: the attributes of
    the root, of the select, of the textarea and of the analyze button, and
    the results panel.  An expression that throws while the component
    renders, or a child React refuses, makes the render fail ([None]). *)

Module View.

(** The options of the language select: value and label. *)
Definition languageOptions : list (str * str) :=
  [ (js "javascript", js "JavaScript");
    (js "python", js "Python");
    (js "typescript", js "TypeScript");
    (js "java", js "Java");
    (js "csharp", js "C#");
    (js "cpp", js "C++");
    (js "go", js "Go");
    (js "rust", js "Rust") ].

(** [ToBoolean] of a parsed value. *)
Definition truthyValue (v : value) : bool :=
  match v with
  | JNull => false
  | JBool b => b
  | JNumber (Zero _) => false
  | JNumber NaN => false
  | JNumber _ => true
  | JString [] => false
  | JString (_ :: _) => true
  | JArray _ => true
  | JObject _ => true
  end.

(** [v.k] for a parsed value [v] that is not null and one of the names the
    render reads ([score], [summary], [issues], [optimizedCode], [line],
    [issue], [suggestion]): an own property of an object, undefined ([None])
    otherwise, as no prototype has a property of these names. *)
Definition field (v : value) (k : str) : option value :=
  match v with
  | JObject props => obj_get props k
  | _ => None
  end.

(** What React accepts as a child: anything but a plain object, in an array
    or not. *)
Fixpoint renderable (v : value) : bool :=
  match v with
  | JObject _ => false
  | JArray items => forallb renderable items
  | _ => true
  end.

Definition validChild (x : option value) : bool :=
  match x with
  | None => true
  | Some v => renderable v
  end.

(** A row of the issues table, a cell being the child it is given. *)
Record Row := mkRow {
  lineCell : option value;
  issueCell : option value;
  suggestionCell : option value
}.

Record ResultsContent := mkContent {
  borderColor : str;
  scoreChild : option value;
  summaryChild : option value;
  issuesTable : option (list Row);      (* [None]: no table *)
  optimizedCodeChild : option value
}.

(** The child [{result && (...)}]: nothing for null and false, the falsy
    value itself for [0] and the empty string, the results otherwise. *)
Inductive Results :=
| Nothing
| Bare (v : value)
| Content (c : ResultsContent).

Record Panel := mkPanel {
  loaderShown : bool;
  errorShown : option str;
  placeholderShown : bool;
  results : Results
}.

Record View := mkView {
  dataTheme : Theme;
  selectValue : str;
  textareaValue : str;
  buttonDisabled : bool;
  buttonLabel : str;
  panel : Panel
}.

Section Builtins.

(** [Number::toString] and [StringToNumber] of ECMA-262 are not written
    out: the render is a function of them. *)
Variable NumberToString : number -> str.
Variable StringToNumber : str -> number.

(** [ToString] of a parsed value; [None] is the [TypeError] of an object
    whose own [toString] is not callable.  An array is joined with commas,
    null items giving the empty string. *)
Fixpoint toStr (v : value) : option str :=
  match v with
  | JNull => Some (js "null")
  | JBool true => Some (js "true")
  | JBool false => Some (js "false")
  | JNumber d => Some (NumberToString d)
  | JString s => Some s
  | JArray items =>
      (fix joined (l : list value) : option str :=
         match l with
         | [] => Some []
         | x :: r =>
             match (match x with
                    | JNull => Some []
                    | _ => toStr x
                    end) with
             | None => None
             | Some a =>
                 match r with
                 | [] => Some a
                 | _ :: _ =>
                     match joined r with
                     | Some b => Some (a ++ 44%N :: b)
                     | None => None
                     end
                 end
             end
         end) items
  | JObject props =>
      match obj_get props (js "toString") with
      | Some _ => None
      | None => Some (js "[object Object]")
      end
  end.

(** [ToNumber] of a value or undefined. *)
Definition toNumber (x : option value) : option number :=
  match x with
  | None => Some NaN
  | Some JNull => Some (Zero false)
  | Some (JBool true) => Some (Finite false 1 0)
  | Some (JBool false) => Some (Zero false)
  | Some (JNumber n) => Some n
  | Some (JString s) => Some (StringToNumber s)
  | Some v => option_map StringToNumber (toStr v)
  end.

(** [x > k]; [None] when the conversion throws. *)
Definition gt (x : option value) (k : Z) : option bool :=
  option_map (fun n => exceeds n k) (toNumber x).

(** [result.score > 85 ? '#4CAF50' : result.score > 60 ? '#FFC107' : '#F44336'] *)
Definition borderColorOf (score : option value) : option str :=
  match gt score 85 with
  | None => None
  | Some true => Some (js "#4CAF50")
  | Some false =>
      match gt score 60 with
      | None => None
      | Some true => Some (js "#FFC107")
      | Some false => Some (js "#F44336")
      end
  end.

(** The callback of [result.issues.map]: reading a property of a null item
    throws. *)
Definition rowOf (issue : value) : option Row :=
  match issue with
  | JNull => None
  | _ =>
      let l := field issue (js "line") in
      let i := field issue (js "issue") in
      let g := field issue (js "suggestion") in
      if validChild l && validChild i && validChild g
      then Some (mkRow l i g)
      else None
  end.

Fixpoint rowsOf (items : list value) : option (list Row) :=
  match items with
  | [] => Some []
  | x :: r =>
      match rowOf x, rowsOf r with
      | Some row, Some rows => Some (row :: rows)
      | _, _ => None
      end
  end.

(** [v.length > 0] for a parsed value [v] that is not null.  The length of
    an array or of a string is a whole number below 2^32, which the
    comparison sees as it is; a number or a boolean has none. *)
Definition lengthPositive (v : value) : option bool :=
  match v with
  | JArray [] => Some false
  | JArray (_ :: _) => Some true
  | JString [] => Some false
  | JString (_ :: _) => Some true
  | JObject props => gt (obj_get props (js "length")) 0
  | _ => gt None 0
  end.

(** [{result.issues.length > 0 && (...)}]: reading [length] of undefined or
    null throws, and so does [map] on what is not an array. *)
Definition issuesTableOf (issues : option value) : option (option (list Row)) :=
  match issues with
  | None => None
  | Some JNull => None
  | Some iv =>
      match lengthPositive iv with
      | None => None
      | Some false => Some None
      | Some true =>
          match iv with
          | JArray items => option_map Some (rowsOf items)
          | _ => None
          end
      end
  end.

Definition resultsOf (result : value) : option Results :=
  if truthyValue result then
    let score := field result (js "score") in
    let summary := field result (js "summary") in
    let optimized := field result (js "optimizedCode") in
    match borderColorOf score, issuesTableOf (field result (js "issues")) with
    | Some color, Some table =>
        if validChild score && validChild summary && validChild optimized
        then Some (Content (mkContent color score summary table optimized))
        else None
    | _, _ => None
    end
  else
    Some (match result with
          | JNull => Nothing
          | JBool _ => Nothing
          | v => Bare v
          end).

Definition render (s : AppState) : option View :=
  match resultsOf (result s) with
  | None => None
  | Some res =>
      Some (mkView
              (theme s)
              (langToString (language s))
              (code s)
              (isLoading s || blank (code s))
              (if isLoading s then js "Analyzing..." else js "Analyze Code")
              (mkPanel
                 (isLoading s)
                 (match error s with
                  | Some (c :: r) => Some (c :: r)
                  | _ => None
                  end)
                 (negb (isLoading s)
                  && negb (truthyValue (result s))
                  && match error s with
                     | Some (_ :: _) => false
                     | _ => true
                     end)
                 res))
  end.

End Builtins.

End View.

Import View.

(** ** The page as a transition system

    The events the page reacts to.  React calls the component again after
    its cells have changed, and until it has done so the page is the one of
    the last render: its button is disabled or not as [isLoading] and [code]
    were then, and a click calls the [analyzeCode] of that render.  A render
    that throws unmounts the component, there being no error boundary: the
    page is gone, nothing can be clicked or typed any more, and the setters
    called by what was still pending do nothing. *)

Module Page.

Inductive Event :=
| CodeEdited (text : str)              (* textarea [onChange] *)
| LanguageSelected (v : str)           (* select [onChange] *)
| ThemeToggled
| FileChosen (file : option str)       (* file input [onChange] *)
| FileLoaded (text : option str)       (* [reader.onload] *)
| FileFailed                           (* [reader.onerror] *)
| AnalyzeClicked (clientOk : bool)     (* a click on the analyze button *)
| Settled (i : nat) (o : Outcome)      (* the [i]-th pending call settles *)
| Rendered.                            (* React renders the component *)

(** The cells, the state the page on screen was rendered from ([None] once a
    render has thrown), and the adapter calls in flight. *)
Record System := mkSystem {
  app : AppState;
  page : option AppState;
  inFlight : list Request
}.

(** The component has been rendered once, in its initial state. *)
Definition start : System := mkSystem initial (Some initial) [].

Fixpoint remove_nth {A} (i : nat) (l : list A) : list A :=
  match l, i with
  | [], _ => []
  | _ :: r, O => r
  | x :: r, S j => x :: remove_nth j r
  end.

Section Builtins.

Variable NumberToString : number -> str.
Variable StringToNumber : str -> number.

(** A handler of the mounted component that changes the cells only. *)
Definition update (f : AppState -> AppState) (y : System) : System :=
  match page y with
  | Some _ => mkSystem (f (app y)) (page y) (inFlight y)
  | None => y
  end.

Definition step (e : Event) (y : System) : System :=
  match e with
  | CodeEdited text => update (setCode text) y
  | LanguageSelected v => update (setLanguage (LString v)) y
  | ThemeToggled => update toggleTheme y
  | FileChosen file => update (handleFileChange file) y
  | FileLoaded text => update (readerOnload text) y
  | FileFailed => update readerOnerror y
  | AnalyzeClicked clientOk =>
      match page y with
      | None => y
      | Some r =>
          if analyzeDisabled r then y
          else
            match analyzeCode_begin_from r clientOk (app y) with
            | (s1, Some req) => mkSystem s1 (page y) (inFlight y ++ [req])
            | (s1, None) => mkSystem s1 (page y) (inFlight y)
            end
      end
  | Settled i o =>
      match nth_error (inFlight y) i with
      | Some _ =>
          mkSystem (match page y with
                    | Some _ => analyzeCode_resume o (app y)
                    | None => app y
                    end)
                   (page y) (remove_nth i (inFlight y))
      | None => y
      end
  | Rendered =>
      match page y with
      | None => y
      | Some _ =>
          match render NumberToString StringToNumber (app y) with
          | Some _ => mkSystem (app y) (Some (app y)) (inFlight y)
          | None => mkSystem (app y) None (inFlight y)
          end
      end
  end.

(** The state after a sequence of events, the first of the list first. *)
Definition run (es : list Event) (y : System) : System :=
  fold_left (fun acc e => step e acc) es y.

End Builtins.

End Page.

Import Page.

(** * Definitions for the statements

    Nothing below is part of the program: these are the stub adapters and
    the data of the scenarios, the predicates the statements are written
    with, and the texts of well-formed responses. *)

(** ** Scenarios *)

(** A client that constructs and whose every call ends in [o]. *)
Definition stub (o : Outcome) : Adapter := mkAdapter true (fun _ => o).

(** The round-trip scenario. *)
Definition pythonCode : str := js "def add(a,b):" ++ nl ++ js "  return a+b".

Definition pythonState : AppState :=
  setCode pythonCode (setLanguage (LString (js "python")) initial).

Definition roundTripResponse : str :=
  jq "{'score': 92, 'summary': 'Clean simple function.', 'issues': [], 'optimizedCode': 'def add(a: int, b: int) -> int:\n    return a + b'}".

Definition roundTripResult : value :=
  JObject
    [ (js "score", JInt 92);
      (js "summary", JString (js "Clean simple function."));
      (js "issues", JArray []);
      (js "optimizedCode",
       JString (js "def add(a: int, b: int) -> int:" ++ nl
                ++ js "    return a + b")) ].

(** A response that has every field, with a score above 100. *)
Definition outOfRangeResponse : str :=
  jq "{'score': 150, 'summary': 'Too good.', 'issues': [], 'optimizedCode': ''}".

(** Code made of spaces, a line feed, a tab and a no-break space. *)
Definition whitespaceState : AppState :=
  setCode (js "   " ++ nl ++ [9%N; 160%N]) pythonState.

(** ** Outcomes and states *)

(** The outcomes that end in the [catch] block. *)
Definition caught (o : Outcome) : bool :=
  match o with
  | Rejected => true
  | Fulfilled None => true
  | Fulfilled (Some text) =>
      match JSON.parse (trim text) with
      | Some _ => false
      | None => true
      end
  end.

(** [parsedResult.score], read as a property of the parsed value. *)
Definition score_of (v : value) : option value :=
  match v with
  | JObject props => obj_get props (js "score")
  | _ => None
  end.

(** ** The parts of the prompt *)

(** The indentation of the template. *)
Definition indent : str := js "        ".

(** The text of the template before the line that holds the code: the
    instructions and the opening fence with its language tag. *)
Definition promptHead (language : str) : str :=
  nl
  ++ js "        You are an expert code reviewer. Analyze the following "
  ++ language
  ++ js " code for errors, code smells, performance issues, and best practice violations. Provide:"
  ++ nl
  ++ js "        1. An overall code quality score from 0 to 100." ++ nl
  ++ js "        2. A list of specific issues found, including the line number, a description of the issue, and a suggested fix."
  ++ nl
  ++ js "        3. An optimized version of the entire code block." ++ nl
  ++ js "        4. A summary of the findings in plain English." ++ nl
  ++ nl
  ++ js "        Code to review:" ++ nl
  ++ indent ++ js "```" ++ language.

(** The text of the template after the code: the closing fence. *)
Definition promptClosing : str :=
  nl ++ indent ++ js "```" ++ nl ++ js "      ".

(** ** The texts of well-formed responses

    The JSON grammar of ECMA-404 as syntax trees: a tree records how a text
    is written (the white space at every place that allows some, how each
    code unit of a string is spelled, the digits of a number), [print] gives
    the text and [denote] the value the text stands for.  The well-formed
    JSON texts are the [print t] with [wellFormed t]. *)

Module Grammar.

(** How a code unit of a string is written between the quotes. *)
Inductive spelling :=
| Plain (c : codeunit)                 (* the unit itself *)
| Short (e : codeunit)                 (* a backslash and [e] *)
| Hex (h1 h2 h3 h4 : codeunit).        (* a backslash, u and four digits *)

Definition spell (x : spelling) : str :=
  match x with
  | Plain c => [c]
  | Short e => [92%N; e]
  | Hex h1 h2 h3 h4 => [92%N; 117%N; h1; h2; h3; h4]
  end.

(** The unit a spelling stands for; [None] for what the grammar excludes:
    a bare quote, backslash or control character, an unknown escape, a
    digit that is not hexadecimal. *)
Definition spelled (x : spelling) : option codeunit :=
  match x with
  | Plain c =>
      if (N.eqb c 34 || N.eqb c 92 || N.ltb c 32)%bool then None else Some c
  | Short e => unescape e
  | Hex h1 h2 h3 h4 => hex4 h1 h2 h3 h4
  end.

Definition unit_of (x : spelling) : codeunit :=
  match spelled x with
  | Some u => u
  | None => 0%N
  end.

Definition quoted (cs : list spelling) : str :=
  34%N :: flat_map spell cs ++ [34%N].

Definition decoded (cs : list spelling) : str := map unit_of cs.

Definition spellings_ok (cs : list spelling) : bool :=
  forallb (fun x => match spelled x with Some _ => true | None => false end) cs.

(** The exponent part of a number: [e] or [E], a sign or none, digits. *)
Record exponentPart := mkExponent {
  marker : codeunit;
  sign : option bool;                  (* [Some true]: a minus sign *)
  expDigits : list codeunit
}.

(** A number as written: a minus sign or none, the digits before the
    point, those after it if there is a point, an exponent part or none. *)
Record numeral := mkNumeral {
  minus : bool;
  whole : list codeunit;
  fraction : option (list codeunit);
  exponent : option exponentPart
}.

Definition fraction_digits (n : numeral) : list codeunit :=
  match fraction n with
  | Some ds => ds
  | None => []
  end.

Definition exponent_text (x : option exponentPart) : str :=
  match x with
  | None => []
  | Some p =>
      marker p
      :: match sign p with
         | None => []
         | Some false => [43%N]
         | Some true => [45%N]
         end
      ++ expDigits p
  end.

Definition fraction_text (f : option (list codeunit)) : str :=
  match f with
  | None => []
  | Some ds => 46%N :: ds
  end.

Definition print_numeral (n : numeral) : str :=
  (if minus n then [45%N] else [])
  ++ whole n ++ fraction_text (fraction n) ++ exponent_text (exponent n).

Definition exponent_value (x : option exponentPart) : Z :=
  match x with
  | None => 0%Z
  | Some p =>
      match sign p with
      | Some true => (- digits_value (expDigits p))%Z
      | _ => digits_value (expDigits p)
      end
  end.

(** The number a numeral stands for: the number value of its decimal. *)
Definition numeral_value (n : numeral) : number :=
  ofDecimal (minus n)
            (digits_value (whole n ++ fraction_digits n))
            (exponent_value (exponent n)
             - Z.of_nat (List.length (fraction_digits n))).

Definition digits_ok (ds : list codeunit) : bool :=
  match ds with
  | [] => false
  | _ :: _ => forallb isDigit ds
  end.

Definition numeral_ok (n : numeral) : bool :=
  match whole n with
  | [] => false
  | d :: ds => if N.eqb d 48 then match ds with [] => true | _ => false end
               else forallb isDigit (d :: ds)
  end
  && match fraction n with
     | None => true
     | Some ds => digits_ok ds
     end
  && match exponent n with
     | None => true
     | Some p => (N.eqb (marker p) 101 || N.eqb (marker p) 69)
                 && digits_ok (expDigits p)
     end.

(** Something with the white space written before and after it. *)
Record padded (T : Type) := Pad {
  before : str;
  item : T;
  after : str
}.

Arguments Pad {T} _ _ _.
Arguments before {T} _.
Arguments item {T} _.
Arguments after {T} _.

Unset Elimination Schemes.

(** The white space [w] of an array or an object follows its opening
    bracket; a member is a padded key, a colon and a padded value. *)
Inductive tree :=
| WNull
| WTrue
| WFalse
| WNumber (n : numeral)
| WString (cs : list spelling)
| WArray (w : str) (items : list (padded tree))
| WObject (w : str) (members : list (padded (list spelling) * padded tree)).

Set Elimination Schemes.

(** Texts separated by commas. *)
Fixpoint commas (ts : list str) : str :=
  match ts with
  | [] => []
  | t :: ts' =>
      t ++ match ts' with
           | [] => []
           | _ :: _ => 44%N :: commas ts'
           end
  end.

Definition key_text (k : padded (list spelling)) : str :=
  before k ++ quoted (item k) ++ after k.

Fixpoint print (t : tree) : str :=
  match t with
  | WNull => js "null"
  | WTrue => js "true"
  | WFalse => js "false"
  | WNumber n => print_numeral n
  | WString cs => quoted cs
  | WArray w items =>
      91%N :: w
      ++ commas (map (fun e => before e ++ print (item e) ++ after e) items)
      ++ [93%N]
  | WObject w members =>
      123%N :: w
      ++ commas (map (fun m => key_text (fst m)
                               ++ 58%N :: before (snd m)
                               ++ print (item (snd m)) ++ after (snd m))
                     members)
      ++ [125%N]
  end.

Fixpoint denote (t : tree) : value :=
  match t with
  | WNull => JNull
  | WTrue => JBool true
  | WFalse => JBool false
  | WNumber n => JNumber (numeral_value n)
  | WString cs => JString (decoded cs)
  | WArray _ items => JArray (map (fun e => denote (item e)) items)
  | WObject _ members =>
      mk_object (map (fun m => (decoded (item (fst m)), denote (item (snd m))))
                     members)
  end.

Definition spaces (w : str) : bool := forallb isJSONSpace w.

Fixpoint wellFormed (t : tree) : bool :=
  match t with
  | WNumber n => numeral_ok n
  | WString cs => spellings_ok cs
  | WArray w items =>
      spaces w
      && forallb (fun e => spaces (before e) && wellFormed (item e)
                           && spaces (after e)) items
  | WObject w members =>
      spaces w
      && forallb (fun m => spaces (before (fst m))
                           && spellings_ok (item (fst m))
                           && spaces (after (fst m))
                           && (spaces (before (snd m))
                               && wellFormed (item (snd m))
                               && spaces (after (snd m)))) members
  | _ => true
  end.

(** The text of an element and of a member. *)
Definition element_text (e : padded tree) : str :=
  before e ++ print (item e) ++ after e.

Definition member_text (m : padded (list spelling) * padded tree) : str :=
  key_text (fst m) ++ 58%N :: element_text (snd m).

Definition element_ok (e : padded tree) : bool :=
  spaces (before e) && wellFormed (item e) && spaces (after e).

Definition member_ok (m : padded (list spelling) * padded tree) : bool :=
  spaces (before (fst m)) && spellings_ok (item (fst m))
  && spaces (after (fst m)) && element_ok (snd m).

Definition member_value (m : padded (list spelling) * padded tree)
  : str * value :=
  (decoded (item (fst m)), denote (item (snd m))).

(** The nodes of a tree, counting every element and member once more: a
    bound on the calls [parse_value] makes to read its text. *)
Fixpoint size (t : tree) : nat :=
  match t with
  | WArray _ items =>
      S (list_sum (map (fun e => S (size (item e))) items))
  | WObject _ members =>
      S (list_sum (map (fun m => S (size (item (snd m)))) members))
  | _ => 1
  end.

(** What may follow a value in a text: nothing, white space, a comma or a
    closing bracket. *)
Definition isStop (c : codeunit) : bool :=
  isJSONSpace c || N.eqb c 44 || N.eqb c 93 || N.eqb c 125.

Definition stops (rest : str) : Prop :=
  match rest with
  | [] => True
  | c :: _ => isStop c = true
  end.

(** A text that does not go on with a digit. *)
Definition no_digit (s : str) : Prop :=
  match s with
  | [] => True
  | c :: _ => isDigit c = false
  end.

(** What follows the digits before the point, or those after it: no digit
    and no second point. *)
Definition after_digits (s : str) : Prop :=
  match s with
  | [] => True
  | c :: _ => isDigit c = false /\ N.eqb c 46 = false
  end.

(** What follows an item in a list: the closing bracket, or a comma and the
    items left. *)
Definition more (ts : list str) (close : codeunit) (rest : str) : str :=
  match ts with
  | [] => close :: rest
  | _ :: _ => 44%N :: commas ts ++ close :: rest
  end.

(** A tree reads back: its text, followed by anything that may follow a
    value, parses to its value and leaves what follows. *)
Definition reads (t : tree) : Prop :=
  forall (fuel : nat) (rest : str),
    (size t < fuel)%nat -> stops rest ->
    parse_value fuel (print t ++ rest) = Some (denote t, rest).

(** The issue objects written in a response: the elements of the array
    that the last member named [issues] of the object holds. *)
Definition response_issues (t : tree) : option (list tree) :=
  match t with
  | WObject _ members =>
      match find (fun m => str_eqb (decoded (item (fst m))) (js "issues"))
                 (rev members) with
      | Some m =>
          match item (snd m) with
          | WArray _ items => Some (map item items)
          | _ => None
          end
      | None => None
      end
  | _ => None
  end.

(** Shorthands to write trees with: a string spelled plainly, a run of
    digits, a key or a value with white space before it. *)
Definition plain (s : string) : list spelling := map Plain (js s).

Definition integer (ds : string) : tree :=
  WNumber (mkNumeral false (js ds) None None).

Definition key (w k : string) : padded (list spelling) :=
  Pad (js w) (plain k) [].

Definition val (w : string) (t : tree) : padded tree := Pad (js w) t [].

End Grammar.

Import Grammar.

(** ** Typed results and the schema *)

(** The objects the helper types denote. *)
Definition issue_value (i : AnalysisIssue) : value :=
  JObject [ (js "line", JNumber (line i));
            (js "issue", JString (issue i));
            (js "suggestion", JString (suggestion i)) ].

Definition result_value (r : AnalysisResult) : value :=
  JObject [ (js "score", JNumber (score r));
            (js "summary", JString (summary r));
            (js "issues", JArray (map issue_value (issues r)));
            (js "optimizedCode", JString (optimizedCode r)) ].




(** [parsedResult.issues], when it is an array. *)
Definition issues_of (v : value) : option (list value) :=
  match v with
  | JObject props =>
      match obj_get props (js "issues") with
      | Some (JArray items) => Some items
      | _ => None
      end
  | _ => None
  end.

(** What a schema asks of a value: the type of the node, the required
    properties of an object, and the schemas of the items and of the
    properties that are present. *)
Fixpoint conforms (sch : Schema) (v : value) {struct sch} : bool :=
  match sch with
  | mkSchema ty _ items properties required =>
      match ty, v with
      | TInteger, JNumber n => isWhole n
      | TString, JString _ => true
      | TArray, JArray l =>
          match items with
          | Some it => forallb (conforms it) l
          | None => true
          end
      | TObject, JObject props =>
          forallb (fun k => match obj_get props k with
                            | Some _ => true
                            | None => false
                            end) required
          && forallb (fun p => match obj_get props (fst p) with
                               | Some x => conforms (snd p) x
                               | None => true
                               end) properties
      | _, _ => false
      end
  end.

(** The result of the round-trip scenario, as a typed value, and the tree
    of the response of the scenario. *)
Definition roundTripTyped : AnalysisResult :=
  mkResult (ofZ 92) (js "Clean simple function.") []
           (js "def add(a: int, b: int) -> int:" ++ nl ++ js "    return a + b").

Definition roundTripTree : tree :=
  WObject []
    [ (key "" "score", val " " (integer "92"));
      (key " " "summary", val " " (WString (plain "Clean simple function.")));
      (key " " "issues", val " " (WArray [] []));
      (key " " "optimizedCode",
       val " " (WString (plain "def add(a: int, b: int) -> int:"
                         ++ [Short 110%N] ++ plain "    return a + b"))) ].

(** A result with two issues, and a response that holds it: written on
    several lines, with a fraction, an exponent and escapes where the
    grammar allows them, and white space around. *)
Definition reviewedTyped : AnalysisResult :=
  mkResult (ofZ 74) (js "Works, but untyped.")
           [ mkIssue (ofZ 1) (js "Missing type hints") (js "Annotate a and b.");
             mkIssue (ofZ 2) (js "No docstring") (js "Say what add returns.") ]
           (js "def add(a: int, b: int) -> int:" ++ nl ++ js "    return a + b").

Definition reviewedTree : tree :=
  WObject nl
    [ (key "  " "score",
       val " " (WNumber (mkNumeral false (js "7") (Some (js "40"))
                           (Some (mkExponent 101%N (Some false) (js "1"))))));
      (Pad (nl ++ js "  ") (plain "summary") (js " "),
       val "" (WString (plain "Works, but untyped.")));
      (Pad (nl ++ js "  ") (plain "issues") [],
       val " "
         (WArray nl
            [ Pad (js "    ")
                  (WObject []
                     [ (key "" "line", val " " (integer "1"));
                       (key " " "issue",
                        val " " (WString (plain "Missing type hints")));
                       (key " " "suggestion",
                        val " " (WString (plain "Annotate a and b."))) ])
                  [];
              Pad (nl ++ js "    ")
                  (WObject (js " ")
                     [ (key "" "line",
                        val "" (WNumber (mkNumeral false (js "2")
                                           (Some (js "0")) None)));
                       (key "" "issue",
                        val "" (WString
                                  (plain "No docstring")));
                       (key "" "suggestion",
                        Pad [] (WString
                                  (plain "Say what "
                                   ++ [Hex 48%N 48%N 54%N 49%N]
                                   ++ plain "dd returns.")) (js " ")) ])
                  nl ]));
      (Pad (nl ++ js "  ") (plain "optimizedCode") [],
       Pad (js " ")
           (WString (plain "def add(a: int, b: int) -> int:"
                     ++ [Short 110%N] ++ plain "    return a + b"))
           nl) ].

Definition reviewedResponse : str :=
  nl ++ js "  " ++ print reviewedTree ++ nl.

(** ** Reachable states, uploads and the rendered result *)

(** The events, with a render after each of them: React has rendered the
    component again by the time the next event comes. *)
Definition rerendered (es : list Event) : list Event :=
  flat_map (fun e => [e; Rendered]) es.

(** The clicks on the theme toggle among the events, counted while the
    page is there to be clicked. *)
Fixpoint toggles (n2s : number -> str) (s2n : str -> number)
         (es : list Event) (y : System) : nat :=
  match es with
  | [] => O
  | e :: r =>
      (match e, page y with
       | ThemeToggled, Some _ => 1
       | _, _ => 0
       end + toggles n2s s2n r (step n2s s2n e y))%nat
  end.

(** A file name without a dot. *)
Definition dotless (name : str) : bool :=
  forallb (fun c => negb (N.eqb c 46)) name.

(** The colour of the score circle: green above 85, amber above 60, red
    otherwise. *)
Definition scoreColor (n : number) : str :=
  if exceeds n 85 then js "#4CAF50"
  else if exceeds n 60 then js "#FFC107"
  else js "#F44336".

(** The row and the results a typed result is shown as. *)
Definition typedRow (i : AnalysisIssue) : Row :=
  mkRow (Some (JNumber (line i))) (Some (JString (issue i)))
        (Some (JString (suggestion i))).

Definition typedContent (r : AnalysisResult) : ResultsContent :=
  mkContent (scoreColor (score r))
            (Some (JNumber (score r)))
            (Some (JString (summary r)))
            (match issues r with
             | [] => None
             | _ :: _ => Some (map typedRow (issues r))
             end)
            (Some (JString (optimizedCode r))).

(** A response with neither [issues] nor anything else the render needs. *)
Definition scoreOnlyResponse : str := jq "{'score': 90}".

(** The stand-ins the examples below take for [Number::toString] and
    [StringToNumber]; no statement depends on which functions they are. *)
Definition noDigits : number -> str := fun _ => [].
Definition notANumber : str -> number := fun _ => NaN.

(** ** What the states of the page satisfy *)

(** In every state the page reaches: while the flag is up there is no
    result, a call is in flight and the page is there; the error is absent
    or one of the two messages a handler of the page can set; and the page
    on screen comes from a render that succeeded. *)
Definition sound (n2s : number -> str) (s2n : str -> number) (y : System)
  : Prop :=
  (isLoading (app y) = true ->
   result (app y) = JNull /\ inFlight y <> [] /\ page y <> None)
  /\ (error (app y) = None
      \/ error (app y) = Some analysisFailedMessage
      \/ error (app y) = Some fileReadMessage)
  /\ (forall r, page y = Some r -> render n2s s2n r <> None).

(** The loading flag counts the calls in flight: one when it is up, none
    when it is down. *)
Definition in_step (y : System) : Prop :=
  (isLoading (app y) = true /\ exists req, inFlight y = [req])
  \/ (isLoading (app y) = false /\ inFlight y = []).

(** The cells when no two calls overlap: the flag counts the calls, and the
    message of a failed analysis stands next to no result. *)
Definition cells (y : System) : Prop :=
  in_step y
  /\ (isLoading (app y) = true ->
      result (app y) = JNull /\ error (app y) <> Some analysisFailedMessage)
  /\ (error (app y) = Some analysisFailedMessage -> result (app y) = JNull).

(** The states reached when React renders after every event: the page on
    screen is that of the current state, or it is gone. *)
Definition in_sync (y : System) : Prop :=
  ((page y = None /\ isLoading (app y) = false) \/ page y = Some (app y))
  /\ cells y.

(** * Properties *)

(** ** Input validation and the lifecycle flags *)

Section Lifecycle.

Variable a : Adapter.
Variable s : AppState.

Lemma blank_trim (c : str) : blank c = true <-> trim c = [].
Proof.
  unfold blank. destruct (trim c); split; congruence.
Qed.

Lemma analyzeCode_blank :
  blank (code s) = true ->
  analyzeCode a s = (setError (Some emptyInputMessage) s, []).
Proof.
  intros Hb. unfold analyzeCode, analyzeCode_begin, analyzeCode_begin_from.
  rewrite Hb. reflexivity.
Qed.

Lemma resume_not_loading (o : Outcome) (s' : AppState) :
  isLoading (analyzeCode_resume o s') = false.
Proof.
  destruct o as [|[text|]]; simpl; try reflexivity.
  destruct (JSON.parse (trim text)); reflexivity.
Qed.

(** What a settled call leaves behind: either the parsed value and no
    error, or the one message of [catch] and the result as it was. *)
Lemma resume_cases (o : Outcome) (s' : AppState) :
  (exists text v, o = Fulfilled (Some text)
                  /\ JSON.parse (trim text) = Some v
                  /\ analyzeCode_resume o s' = onFinally (setResult v s'))
  \/ analyzeCode_resume o s' = onFinally (onCatch s').
Proof.
  destruct o as [|[text|]]; simpl; auto.
  destruct (JSON.parse (trim text)) as [v|] eqn:E; auto.
  left. exists text, v. auto.
Qed.

End Lifecycle.

(** ** Empty input *)

(** C4: for every code that is blank or white space only after trimming,
    [analyzeCode] goes straight to the empty-input error, leaves every other
    cell as it was, and sends nothing to the adapter, whatever the adapter. *)
Theorem analyzeCode_empty_input :
  forall (a : Adapter) (s : AppState),
    trim (code s) = [] ->
    analyzeCode a s = (setError (Some emptyInputMessage) s, [])
    /\ error (fst (analyzeCode a s)) = Some emptyInputMessage
    /\ snd (analyzeCode a s) = []
    /\ forall clientOk, snd (analyzeCode_begin clientOk s) = None.
Proof.
  intros a s Ht.
  apply blank_trim in Ht.
  rewrite (analyzeCode_blank a s Ht). simpl.
  repeat split.
  intros clientOk. unfold analyzeCode_begin, analyzeCode_begin_from.
  rewrite Ht. reflexivity.
Qed.

Lemma analyzeCode_empty_input_witness :
  trim (code whitespaceState) = []
  /\ (analyzeCode (stub Rejected) whitespaceState
      = (setError (Some emptyInputMessage) whitespaceState, [])
      /\ error (fst (analyzeCode (stub Rejected) whitespaceState))
         = Some emptyInputMessage
      /\ snd (analyzeCode (stub Rejected) whitespaceState) = []
      /\ forall clientOk, snd (analyzeCode_begin clientOk whitespaceState) = None).
Proof.
  split.
  - reflexivity.
  - apply (analyzeCode_empty_input (stub Rejected) whitespaceState).
    reflexivity.
Defined.

(** ** The loading flag *)

(** C10: past input validation the loading flag is raised while the call is
    out and is down again when the attempt is over, on every path: the client
    failing to construct, the call rejecting, a response without text, a text
    that does not parse, and success; whatever state the settled call finds. *)
Theorem loading_cleared_on_every_path :
  forall (s : AppState),
    trim (code s) <> [] ->
    isLoading (fst (analyzeCode_begin true s)) = true
    /\ snd (analyzeCode_begin true s) = Some (generateContentRequest s)
    /\ isLoading (fst (analyzeCode_begin false s)) = false
    /\ (forall (o : Outcome) (s' : AppState),
          isLoading (analyzeCode_resume o s') = false)
    /\ (forall a : Adapter, isLoading (fst (analyzeCode a s)) = false).
Proof.
  intros s Ht.
  assert (Hb : blank (code s) = false).
  { destruct (blank (code s)) eqn:E; [|reflexivity].
    apply blank_trim in E. contradiction. }
  unfold analyzeCode, analyzeCode_begin, analyzeCode_begin_from. rewrite Hb.
  repeat split; try reflexivity.
  - intros o s'. apply resume_not_loading.
  - intros a. destruct (constructs a); simpl; [|reflexivity].
    apply resume_not_loading.
Qed.

Lemma loading_cleared_on_every_path_witness :
  trim (code pythonState) <> []
  /\ (isLoading (fst (analyzeCode_begin true pythonState)) = true
      /\ snd (analyzeCode_begin true pythonState)
         = Some (generateContentRequest pythonState)
      /\ isLoading (fst (analyzeCode_begin false pythonState)) = false
      /\ (forall (o : Outcome) (s' : AppState),
            isLoading (analyzeCode_resume o s') = false)
      /\ (forall a : Adapter, isLoading (fst (analyzeCode a pythonState)) = false)).
Proof.
  split.
  - discriminate.
  - apply (loading_cleared_on_every_path pythonState). discriminate.
Defined.

(** ** Failures *)

Lemma resume_caught (o : Outcome) (s : AppState) :
  caught o = true -> analyzeCode_resume o s = onFinally (onCatch s).
Proof.
  destruct o as [|[text|]]; simpl; try reflexivity.
  destruct (JSON.parse (trim text)); [discriminate | reflexivity].
Qed.

Lemma resume_parsed (text : str) (v : value) (s : AppState) :
  JSON.parse (trim text) = Some v ->
  analyzeCode_resume (Fulfilled (Some text)) s = onFinally (setResult v s).
Proof.
  intros H. simpl. rewrite H. reflexivity.
Qed.

Lemma not_blank (c : str) : trim c <> [] -> blank c = false.
Proof.
  intros H. destruct (blank c) eqn:E; [|reflexivity].
  apply blank_trim in E. contradiction.
Qed.

(** A run that gets past input validation, against a client that
    constructs: the request goes out and the outcome decides the rest. *)
Lemma analyzeCode_dispatch (a : Adapter) (s : AppState) :
  trim (code s) <> [] -> constructs a = true ->
  analyzeCode a s =
    (analyzeCode_resume
       (generateContent a (generateContentRequest s))
       (setError None (setResult JNull (setIsLoading true s))),
     [generateContentRequest s]).
Proof.
  intros Ht Hc. unfold analyzeCode, analyzeCode_begin, analyzeCode_begin_from.
  rewrite (not_blank _ Ht), Hc. reflexivity.
Qed.

(** C5, as the code has it: the response [not json] and a transport fault
    leave the component in one and the same state. *)
Lemma unparseable_and_fault_same_state :
  fst (analyzeCode (stub (Fulfilled (Some (js "not json")))) pythonState)
  = fst (analyzeCode (stub Rejected) pythonState).
Proof. vm_compute. reflexivity. Qed.

(** C5, amended: every failure of an attempt that got past input validation
    ends in the same state, with the one message of the [catch] block and no
    result; which of a rejected call, a response without text or a text that
    is not JSON caused it cannot be told from the state.  Only the
    empty-input message differs from it. *)
Theorem failures_share_one_message :
  forall (a1 a2 : Adapter) (s : AppState),
    trim (code s) <> [] ->
    constructs a1 = true -> constructs a2 = true ->
    caught (generateContent a1 (generateContentRequest s)) = true ->
    caught (generateContent a2 (generateContentRequest s)) = true ->
    fst (analyzeCode a1 s) = fst (analyzeCode a2 s)
    /\ error (fst (analyzeCode a1 s)) = Some analysisFailedMessage
    /\ result (fst (analyzeCode a1 s)) = JNull
    /\ isLoading (fst (analyzeCode a1 s)) = false
    /\ analysisFailedMessage <> emptyInputMessage.
Proof.
  intros a1 a2 s Ht H1 H2 C1 C2.
  rewrite (analyzeCode_dispatch a1 s Ht H1), (analyzeCode_dispatch a2 s Ht H2).
  cbn [fst]. rewrite (resume_caught _ _ C1), (resume_caught _ _ C2).
  repeat split. discriminate.
Qed.

Lemma failures_share_one_message_witness :
  (trim (code pythonState) <> []
   /\ caught (Fulfilled (Some (js "not json"))) = true
   /\ caught Rejected = true)
  /\ (fst (analyzeCode (stub (Fulfilled (Some (js "not json")))) pythonState)
      = fst (analyzeCode (stub Rejected) pythonState)
      /\ error (fst (analyzeCode (stub (Fulfilled (Some (js "not json"))))
                                 pythonState))
         = Some analysisFailedMessage
      /\ result (fst (analyzeCode (stub (Fulfilled (Some (js "not json"))))
                                  pythonState))
         = JNull
      /\ isLoading (fst (analyzeCode (stub (Fulfilled (Some (js "not json"))))
                                     pythonState))
         = false
      /\ analysisFailedMessage <> emptyInputMessage).
Proof.
  split.
  - split; [discriminate | split; reflexivity].
  - apply (failures_share_one_message
             (stub (Fulfilled (Some (js "not json")))) (stub Rejected)
             pythonState).
    + discriminate.
    + reflexivity.
    + reflexivity.
    + reflexivity.
    + reflexivity.
Defined.

(** ** The response *)

(** C1, as the code has it: a response whose score is 150 is stored as
    the result with no error, and so is the response [{}], which has none of
    the fields the schema requires. *)
Lemma out_of_range_score_accepted :
  (let s' := fst (analyzeCode (stub (Fulfilled (Some outOfRangeResponse)))
                              pythonState) in
   error s' = None
   /\ isLoading s' = false
   /\ score_of (result s') = Some (JInt 150))
  /\ (let s' := fst (analyzeCode (stub (Fulfilled (Some (js "{}"))))
                                 pythonState) in
      error s' = None
      /\ isLoading s' = false
      /\ result s' = JObject []
      /\ conforms analysisSchema (result s') = false).
Proof. vm_compute. repeat split. Qed.

(** C1, amended: a response text that, once trimmed, is not JSON ends the
    attempt with the message of the [catch] block and no result; a text that
    parses is stored as the result exactly as parsed, with no error: neither
    the required fields nor the range of the score are looked at. *)
Theorem response_parsed_not_validated :
  forall (a : Adapter) (s : AppState) (text : str),
    trim (code s) <> [] ->
    constructs a = true ->
    generateContent a (generateContentRequest s) = Fulfilled (Some text) ->
    let s' := fst (analyzeCode a s) in
    isLoading s' = false
    /\ match JSON.parse (trim text) with
       | None => error s' = Some analysisFailedMessage /\ result s' = JNull
       | Some v => error s' = None /\ result s' = v
       end.
Proof.
  intros a s text Ht Hc Ho s'. subst s'.
  rewrite (analyzeCode_dispatch a s Ht Hc), Ho. cbn [fst].
  split; [apply resume_not_loading|].
  destruct (JSON.parse (trim text)) as [v|] eqn:E.
  - rewrite (resume_parsed text v _ E). split; reflexivity.
  - rewrite resume_caught by (simpl; rewrite E; reflexivity).
    split; reflexivity.
Qed.

Lemma response_parsed_not_validated_witness :
  (trim (code pythonState) <> []
   /\ JSON.parse (trim outOfRangeResponse) <> None)
  /\ (let s' := fst (analyzeCode (stub (Fulfilled (Some outOfRangeResponse)))
                                 pythonState) in
      isLoading s' = false
      /\ match JSON.parse (trim outOfRangeResponse) with
         | None => error s' = Some analysisFailedMessage /\ result s' = JNull
         | Some v => error s' = None /\ result s' = v
         end).
Proof.
  split.
  - split; [discriminate | vm_compute; discriminate].
  - apply (response_parsed_not_validated
             (stub (Fulfilled (Some outOfRangeResponse))) pythonState
             outOfRangeResponse).
    + discriminate.
    + reflexivity.
    + reflexivity.
Defined.

(** Past input validation a failure never keeps a result: the result is
    reset before the request goes out. *)
Lemma failure_past_validation_has_no_result (a : Adapter) (s : AppState) :
  trim (code s) <> [] ->
  error (fst (analyzeCode a s)) <> None ->
  result (fst (analyzeCode a s)) = JNull.
Proof.
  intros Ht. unfold analyzeCode, analyzeCode_begin, analyzeCode_begin_from.
  rewrite (not_blank _ Ht).
  destruct (constructs a); simpl; [|reflexivity].
  destruct (generateContent a (generateContentRequest s)) as [|[text|]];
    simpl; try reflexivity.
  destruct (JSON.parse (trim text)); simpl; [congruence | reflexivity].
Qed.
(** ** The page *)

Section PageStates.

Variable n2s : number -> str.
Variable s2n : str -> number.

Lemma run_app (es l : list Event) (y : System) :
  run n2s s2n (es ++ l) y = run n2s s2n l (run n2s s2n es y).
Proof. unfold run. apply fold_left_app. Qed.

Lemma run_cons (e : Event) (es : list Event) (y : System) :
  run n2s s2n (e :: es) y = run n2s s2n es (step n2s s2n e y).
Proof. reflexivity. Qed.

(** The handlers that do not touch the flag, the result or the error. *)
Lemma handleFileChange_frame (file : option str) (s : AppState) :
  code (handleFileChange file s) = code s
  /\ isLoading (handleFileChange file s) = isLoading s
  /\ result (handleFileChange file s) = result s
  /\ error (handleFileChange file s) = error s
  /\ theme (handleFileChange file s) = theme s.
Proof.
  destruct file as [name|]; simpl; [|repeat split].
  destruct (extension name); [repeat split|].
  destruct (truthy _); repeat split.
Qed.

Lemma readerOnload_frame (text : option str) (s : AppState) :
  isLoading (readerOnload text s) = isLoading s
  /\ result (readerOnload text s) = result s
  /\ error (readerOnload text s) = error s
  /\ theme (readerOnload text s) = theme s.
Proof. destruct text; repeat split. Qed.

Lemma toggleTheme_frame (s : AppState) :
  isLoading (toggleTheme s) = isLoading s
  /\ result (toggleTheme s) = result s
  /\ error (toggleTheme s) = error s.
Proof. repeat split. Qed.

(** A state without result renders. *)
Lemma render_no_result (s : AppState) :
  result s = JNull -> render n2s s2n s <> None.
Proof. intros R. unfold render. rewrite R. discriminate. Qed.

(** What a click does to a page that shows the button enabled. *)
Lemma click_enabled (clientOk : bool) (y : System) (r : AppState) :
  page y = Some r -> analyzeDisabled r = false ->
  step n2s s2n (AnalyzeClicked clientOk) y
  = if clientOk
    then mkSystem (setError None (setResult JNull (setIsLoading true (app y))))
                  (Some r) (inFlight y ++ [generateContentRequest r])
    else mkSystem (onFinally (onCatch (setError None
                     (setResult JNull (setIsLoading true (app y))))))
                  (Some r) (inFlight y).
Proof.
  intros P D. unfold step. rewrite P, D.
  unfold analyzeDisabled in D. apply orb_false_elim in D.
  unfold analyzeCode_begin_from. rewrite (proj2 D).
  destruct clientOk; reflexivity.
Qed.

(** And to any other page: nothing. *)
Lemma click_disabled (clientOk : bool) (y : System) :
  match page y with
  | Some r => analyzeDisabled r = true
  | None => True
  end ->
  step n2s s2n (AnalyzeClicked clientOk) y = y.
Proof.
  intros H. unfold step. destruct (page y); [rewrite H|]; reflexivity.
Qed.

(** The error a settled call leaves: the one it found, or the message of
    the [catch] block. *)
Lemma resume_error (o : Outcome) (s : AppState) :
  (error (analyzeCode_resume o s) = error s
   /\ exists text v, o = Fulfilled (Some text)
                     /\ JSON.parse (trim text) = Some v
                     /\ result (analyzeCode_resume o s) = v)
  \/ (error (analyzeCode_resume o s) = Some analysisFailedMessage
      /\ result (analyzeCode_resume o s) = result s).
Proof.
  destruct o as [|[text|]]; simpl; auto.
  destruct (JSON.parse (trim text)) as [v|] eqn:E; simpl; auto.
  left. split; [reflexivity|]. exists text, v. auto.
Qed.

(** *** Every run *)

Lemma sound_start : sound n2s s2n start.
Proof.
  split; [discriminate|]. split; [left; reflexivity|].
  intros r E. inversion E. discriminate.
Qed.

Lemma sound_update (f : AppState -> AppState) (y : System) :
  isLoading (f (app y)) = isLoading (app y) ->
  result (f (app y)) = result (app y) ->
  error (f (app y)) = error (app y)
  \/ error (f (app y)) = Some fileReadMessage ->
  sound n2s s2n y -> sound n2s s2n (update f y).
Proof.
  destruct y as [s [r|] fl]; intros L R E H; [|exact H].
  destruct H as (A & B & C). cbn [app page inFlight update] in *.
  split; [|split]; cbn [app page inFlight].
  - rewrite L, R. exact A.
  - destruct E as [E|E]; rewrite E; auto.
  - exact C.
Qed.

Lemma step_sound (e : Event) (y : System) :
  sound n2s s2n y -> sound n2s s2n (step n2s s2n e y).
Proof.
  intros H. destruct e; cbn [step].
  - apply sound_update; auto.
  - apply sound_update; auto.
  - apply sound_update; auto.
  - apply sound_update; auto; try apply handleFileChange_frame.
    left. apply handleFileChange_frame.
  - apply sound_update; auto; try apply readerOnload_frame.
    left. apply readerOnload_frame.
  - apply sound_update; auto.
  - (* a click *)
    destruct y as [s [r|] fl]; cbn [page app inFlight] in *; [|exact H].
    destruct (analyzeDisabled r) eqn:D; [exact H|].
    unfold analyzeDisabled in D. apply orb_false_elim in D.
    unfold analyzeCode_begin_from. rewrite (proj2 D).
    destruct H as (_ & _ & H3).
    destruct clientOk; (split; [|split]); cbn [app page inFlight fst snd];
      try exact H3.
    + intros _. split; [reflexivity|]. split; [|discriminate].
      intros X. apply app_eq_nil in X. destruct X as [_ X]. discriminate.
    + left. reflexivity.
    + discriminate.
    + right. left. reflexivity.
  - (* a call settles *)
    destruct y as [s pg fl]; cbn [page app inFlight] in *.
    destruct (nth_error fl i) as [q|] eqn:N; [|exact H].
    destruct H as (A & B & C).
    destruct pg as [r|]; (split; [|split]); cbn [app page inFlight];
      try exact C.
    + rewrite resume_not_loading. discriminate.
    + destruct (resume_error o s) as [[E _]|[E _]]; rewrite E; auto.
    + intros X. destruct (A X) as (_ & _ & M). contradiction M. reflexivity.
    + exact B.
  - (* a render *)
    destruct y as [s [r|] fl]; cbn [page app inFlight] in *; [|exact H].
    destruct H as (A & B & C).
    destruct (render n2s s2n s) as [view|] eqn:R;
      (split; [|split]); cbn [app page inFlight]; try exact B.
    + intros X. destruct (A X) as (A1 & A2 & _). repeat split; auto.
      discriminate.
    + intros r' X. inversion X. subst r'. rewrite R. discriminate.
    + intros X. destruct (A X) as (A1 & _).
      contradiction (render_no_result _ A1 R).
    + discriminate.
Qed.

Lemma run_sound (es : list Event) :
  forall y, sound n2s s2n y -> sound n2s s2n (run n2s s2n es y).
Proof.
  induction es as [|e es IH]; intros y H; [exact H|].
  rewrite run_cons. apply IH, step_sound, H.
Qed.

Lemma reachable_sound (es : list Event) :
  sound n2s s2n (run n2s s2n es start).
Proof. apply run_sound, sound_start. Qed.

(** *** Runs with a render after every event *)

Lemma in_sync_start : in_sync start.
Proof.
  split; [right; reflexivity|].
  split; [right; split; reflexivity|].
  split; discriminate.
Qed.

(** A handler that leaves the flag and the result alone, and the error too
    unless it sets the message of a failed read. *)
Lemma cells_update (f : AppState -> AppState) (y : System) :
  isLoading (f (app y)) = isLoading (app y) ->
  result (f (app y)) = result (app y) ->
  error (f (app y)) = error (app y)
  \/ error (f (app y)) = Some fileReadMessage ->
  cells y -> cells (update f y).
Proof.
  destruct y as [s [r|] fl]; intros L R E H; [|exact H].
  destruct H as (I & A & B). cbn [app page inFlight update] in *.
  split; [|split]; cbn [app].
  - destruct I as [[I1 I2]|[I1 I2]]; [left | right];
      cbn [app inFlight] in *; rewrite L; auto.
  - rewrite L, R. intros X. destruct (A X) as [A1 A2]. split; [exact A1|].
    destruct E as [E|E]; rewrite E; [exact A2 | discriminate].
  - rewrite R. destruct E as [E|E]; rewrite E; [exact B | discriminate].
Qed.

Lemma update_page (f : AppState -> AppState) (y : System) :
  page (update f y) = page y.
Proof. destruct y as [s [r|] fl]; reflexivity. Qed.

(** An event on a page that is up to date. *)
Lemma cells_step (e : Event) (y : System) :
  page y = Some (app y) -> cells y ->
  cells (step n2s s2n e y)
  /\ (e <> Rendered -> page (step n2s s2n e y) <> None).
Proof.
  intros P H.
  assert (U : forall f, page (update f y) <> None).
  { intros f. rewrite update_page, P. discriminate. }
  destruct e; cbn [step];
    try (split; [apply cells_update | intros _; apply U]; auto).
  - apply handleFileChange_frame.
  - apply handleFileChange_frame.
  - left. apply handleFileChange_frame.
  - apply readerOnload_frame.
  - apply readerOnload_frame.
  - left. apply readerOnload_frame.
  - (* a click *)
    destruct y as [s pg fl]; cbn [page app inFlight] in *. subst pg.
    destruct (analyzeDisabled s) eqn:D; [split; [exact H | discriminate]|].
    unfold analyzeDisabled in D. apply orb_false_elim in D.
    destruct D as [L Bl].
    unfold analyzeCode_begin_from. rewrite Bl.
    destruct H as (I & _ & _).
    destruct I as [[L' _]|[_ F]]; cbn [app inFlight] in *; [congruence|].
    subst fl.
    destruct clientOk; (split; [|discriminate]);
      (split; [|split]); cbn [app inFlight List.app].
    + left. split; [reflexivity | eexists; reflexivity].
    + intros _. split; [reflexivity | discriminate].
    + discriminate.
    + right. split; reflexivity.
    + discriminate.
    + reflexivity.
  - (* a call settles *)
    destruct y as [s pg fl]; cbn [page app inFlight] in *. subst pg.
    destruct (nth_error fl i) as [q|] eqn:N; [|split; [exact H | discriminate]].
    split; [|discriminate].
    destruct H as (I & A & B). cbn [app inFlight] in *.
    destruct I as [[L [req F]]|[_ F]]; cbn [app inFlight] in *; subst fl;
      [|destruct i; discriminate].
    destruct (A L) as [R E].
    split; [|split]; cbn [app inFlight].
    + right. split; [apply resume_not_loading|].
      destruct i as [|[|i]]; simpl in *; try reflexivity; discriminate.
    + rewrite resume_not_loading. discriminate.
    + destruct (resume_error o s) as [[X _]|[_ X]];
        rewrite X; [|intros _; exact R].
      intros Y. contradiction.
  - (* a render *)
    split; [|intros X; contradiction X; reflexivity].
    rewrite P. destruct (render n2s s2n (app y)); exact H.
Qed.

(** A render brings the page up to date, or takes it away; in a state
    with the flag up it succeeds. *)
Lemma rendered_sync (y : System) :
  cells y -> (page y = None -> isLoading (app y) = false) ->
  in_sync (step n2s s2n Rendered y).
Proof.
  intros H U. cbn [step].
  destruct (page y) as [r|] eqn:P.
  - destruct (render n2s s2n (app y)) eqn:R.
    + split; [right; reflexivity | exact H].
    + split; [left | exact H]. split; [reflexivity|]. cbn [app].
      destruct (isLoading (app y)) eqn:L; [|reflexivity].
      destruct H as (_ & A & _). destruct (A L) as [A1 _].
      contradiction (render_no_result _ A1 R).
  - split; [left; split; [exact P | apply U; reflexivity] | exact H].
Qed.

Lemma sync_rendered (y : System) :
  in_sync y -> in_sync (step n2s s2n Rendered y).
Proof.
  intros [S C]. apply rendered_sync; [exact C|].
  intros X. destruct S as [[_ L]|P]; [exact L | congruence].
Qed.

(** Once the page is gone no event changes anything. *)
Lemma unmounted_step (e : Event) (y : System) :
  page y = None -> inFlight y = [] -> step n2s s2n e y = y.
Proof.
  intros P F. destruct e; cbn [step]; unfold update; rewrite ?P;
    try reflexivity.
  rewrite F. destruct i; reflexivity.
Qed.

Lemma sync_step (e : Event) (y : System) :
  in_sync y -> in_sync (step n2s s2n Rendered (step n2s s2n e y)).
Proof.
  intros H. destruct H as [[[P L]|P] C].
  - assert (F : inFlight y = []).
    { destruct C as ([[L' _]|[_ F]] & _); [congruence | exact F]. }
    rewrite (unmounted_step e y P F), (unmounted_step Rendered y P F).
    split; [left; split; assumption | exact C].
  - destruct (cells_step e y P C) as [C' M].
    apply rendered_sync; [exact C'|].
    intros X.
    assert (E : e = Rendered).
    { destruct e; try reflexivity; contradiction M; discriminate. }
    subst e.
    destruct (sync_rendered y) as [[[_ L]|Q] _];
      [split; [right; exact P | exact C] | exact L | congruence].
Qed.

Lemma run_in_sync (es : list Event) :
  forall y, in_sync y -> in_sync (run n2s s2n (rerendered es) y).
Proof.
  induction es as [|e es IH]; intros y H; [exact H|].
  cbn [rerendered flat_map List.app].
  rewrite !run_cons. apply IH, sync_step, H.
Qed.

(** With a render after every event no two calls overlap: at most one is
    in flight, exactly when the flag is up, and a click meanwhile does
    nothing. *)
Lemma single_flight_when_rendered (es : list Event) :
  let y := run n2s s2n (rerendered es) start in
  (List.length (inFlight y) <= 1)%nat
  /\ (isLoading (app y) = true <-> List.length (inFlight y) = 1%nat)
  /\ (isLoading (app y) = true ->
      forall clientOk, step n2s s2n (AnalyzeClicked clientOk) y = y).
Proof.
  intros y.
  destruct (run_in_sync es start in_sync_start) as [S (I & _)].
  fold y in S, I.
  destruct I as [[L [req F]]|[L F]]; rewrite F; simpl List.length.
  - split; [lia|]. split; [tauto|]. intros _ clientOk.
    apply click_disabled.
    destruct S as [[S _]|S]; rewrite S; [exact I|].
    unfold analyzeDisabled. rewrite L. reflexivity.
  - split; [lia|]. split; [|congruence].
    rewrite L. split; discriminate.
Qed.

End PageStates.

(** ** A failure and the result of an earlier run *)

(** The early return of [analyzeCode] sets its message without resetting
    the result.  No click reaches it: the button is disabled on the very
    condition it tests, in the same render. *)
Remark early_return_keeps_result (a : Adapter) (s : AppState) :
  trim (code s) = [] ->
  result (fst (analyzeCode a s)) = result s
  /\ error (fst (analyzeCode a s)) = Some emptyInputMessage.
Proof.
  intros Ht. apply blank_trim in Ht.
  rewrite (analyzeCode_blank a s Ht). split; reflexivity.
Qed.

(** The other writer of the error cell: a failed file read after a success
    leaves its message next to the result. *)
Example file_error_keeps_result :
  let y := run noDigits notANumber
               [ CodeEdited pythonCode; Rendered;
                 AnalyzeClicked true;
                 Settled 0 (Fulfilled (Some roundTripResponse)); Rendered;
                 FileChosen (Some (js "notes.txt"));
                 FileFailed ] start in
  error (app y) = Some fileReadMessage /\ result (app y) = roundTripResult.
Proof. vm_compute. split; reflexivity. Qed.


(** ** Calls in flight *)

(** [analyzeCode] itself does not look at the flag: called with code that is
    not blank it sends a request whatever [isLoading] is.  The guard is the
    [disabled] attribute of the button, which is as old as the last render. *)
Remark analyzeCode_begin_ignores_flag (s : AppState) :
  trim (code s) <> [] ->
  snd (analyzeCode_begin true (setIsLoading true s))
  = Some (generateContentRequest s).
Proof.
  intros Ht. unfold analyzeCode_begin, analyzeCode_begin_from. simpl code.
  rewrite (not_blank _ Ht). reflexivity.
Qed.

(** A click on a button shown enabled starts a call whatever the flag is by
    now: a second click on the same render sends the request again. *)
Lemma second_click_sends_again
      (n2s : number -> str) (s2n : str -> number) (y : System) (r : AppState) :
  page y = Some r -> analyzeDisabled r = false ->
  inFlight (step n2s s2n (AnalyzeClicked true)
                 (step n2s s2n (AnalyzeClicked true) y))
  = inFlight y ++ [generateContentRequest r; generateContentRequest r].
Proof.
  intros P D.
  rewrite (click_enabled n2s s2n true y r P D). cbv iota.
  rewrite (click_enabled n2s s2n true (mkSystem _ (Some r) _) r eq_refl D).
  cbn [inFlight]. rewrite <- app_assoc. reflexivity.
Qed.


(** ** The prompt *)

Section Lines.

Variable sep : codeunit.

Lemma split_not_nil (s : str) : split sep s <> [].
Proof.
  destruct s as [|c r]; simpl; [discriminate|].
  destruct (N.eqb c sep); [discriminate|].
  destruct (split sep r); discriminate.
Qed.

Lemma split_hd_tl (s : str) :
  split sep s = hd [] (split sep s) :: tl (split sep s).
Proof.
  pose proof (split_not_nil s) as H.
  destruct (split sep s); [contradiction | reflexivity].
Qed.

(** Splitting at a separator splits the list of segments. *)
Lemma split_app_sep (a b : str) :
  split sep (a ++ sep :: b) = split sep a ++ split sep b.
Proof.
  induction a as [|c a IH]; simpl.
  - rewrite N.eqb_refl. reflexivity.
  - destruct (N.eqb c sep); rewrite IH; [reflexivity|].
    rewrite (split_hd_tl a). reflexivity.
Qed.

(** A prefix without separator stays on the first segment. *)
Lemma split_prefix (p s : str) :
  forallb (fun c => negb (N.eqb c sep)) p = true ->
  split sep (p ++ s) = (p ++ hd [] (split sep s)) :: tl (split sep s).
Proof.
  induction p as [|c p IH]; simpl; intros H.
  - apply split_hd_tl.
  - apply andb_prop in H. destruct H as [Hc Hp].
    apply negb_true_iff in Hc. rewrite Hc, (IH Hp). reflexivity.
Qed.

End Lines.

Lemma prompt_parts (language code : str) :
  prompt language code
  = promptHead language ++ nl ++ indent ++ code ++ promptClosing.
Proof.
  unfold prompt, promptHead, promptClosing, indent.
  repeat rewrite <- app_assoc. reflexivity.
Qed.

Lemma prompt_lines (language code : str) :
  split LF (prompt language code)
  = split LF (promptHead language)
    ++ (indent ++ hd [] (split LF code)) :: tl (split LF code)
    ++ [indent ++ js "```"; js "      "].
Proof.
  rewrite prompt_parts. unfold promptClosing, nl.
  change ([LF] ++ indent ++ code ++ [LF] ++ indent ++ js "```" ++ [LF] ++ js "      ")
    with (LF :: (indent ++ code ++ LF :: (indent ++ js "```" ++ LF :: js "      "))).
  rewrite split_app_sep. f_equal.
  rewrite (app_assoc indent code).
  rewrite split_app_sep.
  rewrite (split_prefix LF indent code) by reflexivity.
  reflexivity.
Qed.

(** C7: for every language and code the prompt is the instructions, an
    opening fence tagged with the language, the code itself and a closing
    fence: the code sits in it whole and unchanged, and the lines of the
    prompt are the lines of the head, then the lines of the code in their
    order (the first one behind the indentation of the template), then the
    closing fence; so line [k] of the code is line [k] of the block. *)
Theorem prompt_embeds_code_verbatim :
  forall (language code : str),
    prompt language code
    = (promptHead language ++ nl ++ indent) ++ code ++ promptClosing
    /\ (exists before, promptHead language = before ++ js "```" ++ language)
    /\ List.length (prompt language code)
       = (List.length (prompt language []) + List.length code)%nat
    /\ split LF (prompt language code)
       = split LF (promptHead language)
         ++ (indent ++ hd [] (split LF code)) :: tl (split LF code)
         ++ [indent ++ js "```"; js "      "].
Proof.
  intros language code. split; [|split; [|split]].
  - rewrite prompt_parts. repeat rewrite <- app_assoc. reflexivity.
  - unfold promptHead. eexists.
    repeat rewrite app_assoc. reflexivity.
  - rewrite !prompt_parts. repeat rewrite length_app. simpl. lia.
  - apply prompt_lines.
Qed.

(** Line numbers: line [k] of the code is line [k] of the fenced block,
    which starts right after the head. *)
Corollary prompt_line_numbers (language code line : str) (k : nat) :
  nth_error (split LF code) (S k) = Some line ->
  nth_error (split LF (prompt language code))
            (List.length (split LF (promptHead language)) + S k)
  = Some line.
Proof.
  intros H. rewrite prompt_lines.
  rewrite nth_error_app2 by lia.
  replace (List.length (split LF (promptHead language)) + S k
           - List.length (split LF (promptHead language)))%nat
    with (S k) by lia.
  simpl. rewrite (split_hd_tl LF code) in H. simpl in H.
  rewrite nth_error_app1; [exact H|].
  apply nth_error_Some. congruence.
Qed.

(** The request of the round-trip scenario carries that prompt. *)
Example prompt_python :
  contents (generateContentRequest pythonState)
  = prompt (js "python") pythonCode
  /\ nth_error (split LF (prompt (js "python") pythonCode)) 8
     = Some (js "        ```python")
  /\ nth_error (split LF (prompt (js "python") pythonCode)) 9
     = Some (js "        def add(a,b):")
  /\ nth_error (split LF (prompt (js "python") pythonCode)) 10
     = Some (js "  return a+b").
Proof. vm_compute. repeat split. Qed.

(** ** Language inference on upload *)

Section Extension.

Lemma lowerUnit_cases (c : codeunit) :
  (lowerUnit c = (c + 32)%N /\ (65 <= c <= 90 \/ 192 <= c <= 222)%N)
  \/ lowerUnit c = c.
Proof.
  unfold lowerUnit.
  destruct (N.leb 65 c && N.leb c 90)%bool eqn:A.
  - apply andb_prop in A. destruct A as [A A'].
    apply N.leb_le in A. apply N.leb_le in A'. auto.
  - destruct (N.leb 192 c && N.leb c 222 && negb (N.eqb c 215))%bool eqn:B;
      [|auto].
    apply andb_prop in B. destruct B as [B _].
    apply andb_prop in B. destruct B as [B B'].
    apply N.leb_le in B. apply N.leb_le in B'. auto.
Qed.

Lemma lowerUnit_stable (x : codeunit) :
  (90 < x < 192 \/ 222 < x)%N -> lowerUnit x = x.
Proof.
  intros H. unfold lowerUnit.
  replace (N.leb x 90) with false by (symmetry; apply N.leb_gt; lia).
  rewrite andb_false_r.
  destruct H as [H|H].
  - replace (N.leb 192 x) with false by (symmetry; apply N.leb_gt; lia).
    reflexivity.
  - replace (N.leb x 222) with false by (symmetry; apply N.leb_gt; lia).
    rewrite andb_false_r. reflexivity.
Qed.

Lemma lowerUnit_dot (c : codeunit) :
  N.eqb (lowerUnit c) 46 = N.eqb c 46.
Proof.
  destruct (lowerUnit_cases c) as [[E L]|E]; rewrite E; [|reflexivity].
  transitivity false; [|symmetry]; apply N.eqb_neq; lia.
Qed.

Lemma lowerUnit_idem (c : codeunit) : lowerUnit (lowerUnit c) = lowerUnit c.
Proof.
  destruct (lowerUnit_cases c) as [[E L]|E]; rewrite !E; [|reflexivity].
  apply lowerUnit_stable. lia.
Qed.

Lemma toLowerCase_idem (s : str) : toLowerCase (toLowerCase s) = toLowerCase s.
Proof.
  unfold toLowerCase. rewrite map_map.
  apply map_ext. apply lowerUnit_idem.
Qed.

(** Lower-casing moves no dot: the segments of the lower-cased name are the
    lower-cased segments. *)
Lemma split_toLowerCase (s : str) :
  split 46%N (toLowerCase s) = map toLowerCase (split 46%N s).
Proof.
  unfold toLowerCase.
  induction s as [|c r IH]; simpl; [reflexivity|].
  rewrite lowerUnit_dot.
  destruct (N.eqb c 46).
  - rewrite IH. reflexivity.
  - rewrite IH, (split_hd_tl 46%N r). reflexivity.
Qed.

Lemma last_map {A B} (f : A -> B) (l : list A) (d : A) :
  last (map f l) (f d) = f (last l d).
Proof.
  induction l as [|x [|y l] IH]; simpl in *; auto.
Qed.

Lemma extension_toLowerCase (name : str) :
  extension (toLowerCase name) = extension name.
Proof.
  unfold extension.
  rewrite split_toLowerCase.
  change (@nil codeunit) with (toLowerCase []) at 1.
  rewrite last_map. apply toLowerCase_idem.
Qed.

Lemma handleFileChange_toLowerCase (name : str) (s : AppState) :
  handleFileChange (Some name) s
  = handleFileChange (Some (toLowerCase name)) s.
Proof.
  unfold handleFileChange. rewrite extension_toLowerCase. reflexivity.
Qed.

(** Names that differ in case only are treated alike. *)
Lemma upload_case_insensitive (n1 n2 : str) (s : AppState) :
  toLowerCase n1 = toLowerCase n2 ->
  handleFileChange (Some n1) s = handleFileChange (Some n2) s.
Proof.
  intros H.
  rewrite (handleFileChange_toLowerCase n1), (handleFileChange_toLowerCase n2).
  rewrite H. reflexivity.
Qed.

End Extension.


(** *** The table *)

Section Table.

Variable s : AppState.

Lemma str_eqb_eq (x y : str) : str_eqb x y = true <-> x = y.
Proof.
  revert y. induction x as [|c x IH]; intros [|d y]; simpl;
    try (split; [discriminate | discriminate]); [tauto|].
  rewrite andb_true_iff, N.eqb_eq, IH.
  split; [intros [-> ->]; reflexivity | intros E; inversion E; auto].
Qed.

(** Every value of the table is a non-empty string, hence truthy. *)
Lemma langMap_values (k v : str) :
  own_get langMap k = Some v -> truthy (Own v) = true.
Proof.
  unfold langMap. simpl.
  repeat match goal with
         | |- context [if ?b then _ else _] => destruct b
         end;
    intros E; inversion E; reflexivity.
Qed.

(** An extension of the table selects its language, whatever was selected
    before. *)
Lemma upload_recognized (name v : str) :
  own_get langMap (extension name) = Some v ->
  handleFileChange (Some name) s = setLanguage (LString v) s.
Proof.
  intros E. unfold handleFileChange.
  pose proof (langMap_values _ _ E) as T.
  unfold langMap_get. rewrite E.
  destruct (extension name) as [|c r] eqn:X.
  - discriminate E.
  - rewrite T. reflexivity.
Qed.

(** An extension that is neither in the table nor the name of a property
    inherited from [Object.prototype] changes nothing. *)
Lemma upload_unrecognized (name : str) :
  own_get langMap (extension name) = None ->
  extension name <> js "constructor" ->
  extension name <> js "__proto__" ->
  handleFileChange (Some name) s = s.
Proof.
  intros E C P. unfold handleFileChange, langMap_get. rewrite E.
  destruct (str_eqb (extension name) (js "constructor")) eqn:A.
  { apply str_eqb_eq in A. contradiction. }
  destruct (str_eqb (extension name) (js "__proto__")) eqn:B.
  { apply str_eqb_eq in B. contradiction. }
  destruct (extension name); reflexivity.
Qed.

(** The two scenarios of the specification. *)
Lemma upload_solution_rs :
  handleFileChange (Some (js "solution.rs")) s = setLanguage (LString (js "rust")) s.
Proof. apply upload_recognized. reflexivity. Qed.

Lemma upload_notes_txt :
  handleFileChange (Some (js "notes.txt")) s = s.
Proof. apply upload_unrecognized; [reflexivity | discriminate | discriminate]. Qed.

(** The rows of the table, one by one. *)
Lemma langMap_rows :
  map (fun ext => own_get langMap (js ext))
      ["js"; "py"; "ts"; "java"; "cs"; "cpp"; "go"; "rs"]%string
  = map (fun l => Some (js l))
        ["javascript"; "python"; "typescript"; "java"; "csharp"; "cpp";
         "go"; "rust"]%string.
Proof. reflexivity. Qed.

End Table.

(** C8, where it breaks: [__proto__] is no row of the table, yet a file
    whose extension it is replaces the selected language, whatever it was,
    by [Object.prototype], which the prompt then renders as
    [[object Object]]; and the extension [constructor] replaces a selected
    string by its wrapper object. *)
Theorem upload_inherited_key_changes_language :
  forall (s : AppState),
    own_get langMap (extension (js "notes.__proto__")) = None
    /\ language (handleFileChange (Some (js "notes.__proto__")) s)
       = LObjectPrototype
    /\ langToString LObjectPrototype = js "[object Object]"
    /\ language (handleFileChange (Some (js "notes.constructor"))
                                  (setLanguage (LString (js "go")) s))
       = LStringObject (js "go").
Proof. intros s. repeat split. Qed.

(** ** Well-formed responses *)

Section Lexical.

Lemma skip_ws_app (w s : str) :
  spaces w = true -> skip_ws (w ++ s) = skip_ws s.
Proof.
  unfold spaces.
  induction w as [|c w IH]; simpl; intros H; [reflexivity|].
  apply andb_prop in H. destruct H as [Hc Hw]. rewrite Hc. auto.
Qed.

Lemma skip_ws_stay (c : codeunit) (r : str) :
  isJSONSpace c = false -> skip_ws (c :: r) = c :: r.
Proof. intros H. simpl. rewrite H. reflexivity. Qed.

Lemma isDigit_range (c : codeunit) :
  isDigit c = true <-> (48 <= c <= 57)%N.
Proof.
  unfold isDigit. rewrite andb_true_iff, !N.leb_le. tauto.
Qed.

Lemma isJSONSpace_cases (c : codeunit) :
  isJSONSpace c = true -> (c = 9 \/ c = 10 \/ c = 13 \/ c = 32)%N.
Proof.
  unfold isJSONSpace. intros H.
  destruct c as [|p]; [discriminate|].
  do 6 (try destruct p as [p|p|]; try discriminate); lia.
Qed.

Lemma isStop_cases (c : codeunit) :
  isStop c = true ->
  (c = 9 \/ c = 10 \/ c = 13 \/ c = 32 \/ c = 44 \/ c = 93 \/ c = 125)%N.
Proof.
  unfold isStop. intros H.
  repeat rewrite orb_true_iff in H.
  destruct H as [[[H|H]|H]|H]; try (apply N.eqb_eq in H; lia).
  apply isJSONSpace_cases in H. lia.
Qed.

(** What follows a value neither continues a number nor starts a part of
    one. *)
Lemma stops_not_digit (c : codeunit) (r : str) :
  stops (c :: r) ->
  isDigit c = false /\ N.eqb c 46 = false
  /\ N.eqb c 101 = false /\ N.eqb c 69 = false.
Proof.
  intros H. apply isStop_cases in H.
  repeat split; decompose [or] H; subst c; reflexivity.
Qed.

Lemma stops_no_digit (rest : str) : stops rest -> no_digit rest.
Proof.
  destruct rest as [|c r]; [trivial|]. intros S.
  apply (stops_not_digit c r S).
Qed.

Lemma span_digits_app (ds rest : str) :
  forallb isDigit ds = true -> no_digit rest ->
  span_digits (ds ++ rest) = (ds, rest).
Proof.
  intros D S. induction ds as [|d ds IH]; simpl.
  - destruct rest as [|c r]; [reflexivity|].
    simpl in S. simpl. rewrite S. reflexivity.
  - simpl in D. apply andb_prop in D. destruct D as [Dd Dds].
    rewrite Dd, (IH Dds). reflexivity.
Qed.

Lemma digits_ok_cons (ds : list codeunit) :
  digits_ok ds = true ->
  exists d r, ds = d :: r /\ isDigit d = true /\ forallb isDigit ds = true.
Proof.
  destruct ds as [|d r]; [discriminate|]. intros H.
  exists d, r. split; [reflexivity|]. split; [|exact H].
  simpl in H. apply andb_prop in H. tauto.
Qed.

End Lexical.

Section Numbers.

Lemma parse_exp_digits_app (neg : bool) (ds rest : str) :
  digits_ok ds = true -> no_digit rest ->
  parse_exp_digits neg (ds ++ rest)
  = Some ((if neg then - digits_value ds else digits_value ds)%Z, rest).
Proof.
  intros D S. unfold parse_exp_digits.
  destruct (digits_ok_cons ds D) as (d & r & E & _ & F).
  rewrite (span_digits_app ds rest F S). rewrite E. reflexivity.
Qed.

Lemma parse_exp_text (x : option exponentPart) (rest : str) :
  match x with
  | None => True
  | Some p => (N.eqb (marker p) 101 || N.eqb (marker p) 69)%bool = true
              /\ digits_ok (expDigits p) = true
  end ->
  stops rest ->
  parse_exp (exponent_text x ++ rest) = Some (exponent_value x, rest).
Proof.
  intros Ok S. destruct x as [[mk sg ds]|]; cbn [exponent_text exponent_value].
  - cbn [marker sign expDigits] in *. destruct Ok as [M D].
    pose proof (stops_no_digit rest S) as ND.
    destruct (digits_ok_cons ds D) as (d & r & E & Dd & _).
    assert (Hd : N.eqb d 43 = false /\ N.eqb d 45 = false).
    { apply isDigit_range in Dd. split; apply N.eqb_neq; lia. }
    destruct sg as [[|]|]; cbn [List.app]; unfold parse_exp; rewrite M.
    + cbn [N.eqb Pos.eqb].
      apply (parse_exp_digits_app true ds rest D ND).
    + cbn [N.eqb Pos.eqb].
      apply (parse_exp_digits_app false ds rest D ND).
    + pose proof (parse_exp_digits_app false ds rest D ND) as P.
      rewrite E in *. cbn [List.app] in *.
      destruct Hd as [H43 H45]. rewrite H43, H45. exact P.
  - destruct rest as [|c r]; [reflexivity|].
    destruct (stops_not_digit c r S) as (_ & _ & E1 & E2).
    cbn [List.app]. unfold parse_exp. rewrite E1, E2. reflexivity.
Qed.

Lemma exponent_text_after_digits (x : option exponentPart) (rest : str) :
  match x with
  | None => True
  | Some p => (N.eqb (marker p) 101 || N.eqb (marker p) 69)%bool = true
              /\ digits_ok (expDigits p) = true
  end ->
  stops rest -> after_digits (exponent_text x ++ rest).
Proof.
  intros Ok S. destruct x as [[mk sg ds]|]; cbn [exponent_text].
  - cbn [marker] in Ok. destruct Ok as [M _].
    cbn [List.app after_digits marker].
    apply orb_true_iff in M.
    destruct M as [M|M]; apply N.eqb_eq in M; subst mk; split; reflexivity.
  - destruct rest as [|c r]; [exact I|].
    destruct (stops_not_digit c r S) as (D & P & _). split; assumption.
Qed.

Lemma parse_frac_text (f : option (list codeunit)) (tail : str) :
  match f with
  | None => True
  | Some ds => digits_ok ds = true
  end ->
  after_digits tail ->
  parse_frac (fraction_text f ++ tail)
  = Some (match f with Some ds => ds | None => [] end, tail).
Proof.
  intros Ok T. destruct f as [ds|]; cbn [fraction_text List.app].
  - destruct (digits_ok_cons ds Ok) as (d & r & E & _ & F).
    unfold parse_frac. cbn [N.eqb Pos.eqb].
    rewrite (span_digits_app ds tail F).
    + rewrite E. reflexivity.
    + destruct tail; [exact I | apply T].
  - destruct tail as [|c r]; [reflexivity|].
    destruct T as [_ P]. unfold parse_frac. rewrite P. reflexivity.
Qed.

Lemma parse_int_whole (wh tail : str) :
  match wh with
  | [] => false
  | d :: ds => if N.eqb d 48 then match ds with [] => true | _ => false end
               else forallb isDigit (d :: ds)
  end = true ->
  no_digit tail ->
  parse_int (wh ++ tail) = Some (wh, tail)
  /\ exists d r, wh = d :: r /\ isDigit d = true.
Proof.
  intros Ok T. destruct wh as [|d ds]; [discriminate|].
  destruct (N.eqb d 48) eqn:Z.
  - destruct ds; [|discriminate]. apply N.eqb_eq in Z. subst d.
    split; [reflexivity|]. exists 48%N, []. split; reflexivity.
  - pose proof (span_digits_app (d :: ds) tail Ok T) as Sp.
    assert (Dd : isDigit d = true).
    { simpl in Ok. apply andb_prop in Ok. tauto. }
    split; [|exists d, ds; split; [reflexivity | exact Dd]].
    unfold parse_int. cbn [List.app] in *. rewrite Z, Dd, Sp. reflexivity.
Qed.

Lemma fraction_text_no_digit (f : option (list codeunit)) (tail : str) :
  after_digits tail -> no_digit (fraction_text f ++ tail).
Proof.
  intros T. destruct f as [ds|]; cbn [fraction_text List.app].
  - reflexivity.
  - destruct tail; [exact I | apply T].
Qed.

(** A well-formed numeral reads as the number it stands for. *)
Lemma parse_number_numeral (n : numeral) (rest : str) :
  numeral_ok n = true -> stops rest ->
  parse_number (print_numeral n ++ rest) = Some (numeral_value n, rest)
  /\ exists c r, print_numeral n = c :: r /\ (c = 45%N \/ isDigit c = true).
Proof.
  intros Ok S. destruct n as [mn wh fr ex].
  unfold numeral_ok in Ok. cbn [minus whole fraction exponent] in Ok.
  apply andb_prop in Ok. destruct Ok as [Ok Oe].
  apply andb_prop in Ok. destruct Ok as [Ow Of].
  assert (Oe' : match ex with
                | None => True
                | Some p => (N.eqb (marker p) 101 || N.eqb (marker p) 69)%bool
                            = true
                            /\ digits_ok (expDigits p) = true
                end).
  { destruct ex; [|exact I]. apply andb_prop in Oe. exact Oe. }
  assert (Of' : match fr with
                | None => True
                | Some ds => digits_ok ds = true
                end).
  { destruct fr; [exact Of | exact I]. }
  pose proof (exponent_text_after_digits ex rest Oe' S) as T1.
  pose proof (parse_exp_text ex rest Oe' S) as PE.
  pose proof (parse_frac_text fr _ Of' T1) as PF.
  pose proof (fraction_text_no_digit fr _ T1) as T2.
  destruct (parse_int_whole wh _ Ow T2) as (PI & d & r & Ew & Dd).
  assert (PU : forall neg,
             parse_unsigned neg
               (wh ++ fraction_text fr ++ exponent_text ex ++ rest)
             = Some (ofDecimal neg
                       (digits_value
                          (wh ++ match fr with Some ds => ds | None => [] end))
                       (exponent_value ex
                        - Z.of_nat (List.length
                                      match fr with
                                      | Some ds => ds
                                      | None => []
                                      end)), rest)).
  { intros neg. unfold parse_unsigned. rewrite PI, PF, PE. reflexivity. }
  unfold print_numeral, numeral_value, fraction_digits.
  cbn [minus whole fraction exponent].
  destruct mn; cbn [List.app].
  - split.
    + unfold parse_number. cbn [N.eqb Pos.eqb].
      rewrite <- !app_assoc. apply PU.
    + eexists _, _. split; [reflexivity | left; reflexivity].
  - split.
    + specialize (PU false). rewrite <- !app_assoc.
      rewrite Ew in *. cbn [List.app] in *.
      unfold parse_number.
      replace (N.eqb d 45) with false; [exact PU|].
      symmetry. apply N.eqb_neq. apply isDigit_range in Dd. lia.
    + rewrite Ew. eexists _, _. split; [reflexivity | right; exact Dd].
Qed.

(** [parse_value] on a text that starts as a number does. *)
Lemma parse_value_number (n : nat) (c : codeunit) (r : str) :
  c = 45%N \/ isDigit c = true ->
  parse_value (S n) (c :: r)
  = match parse_number (c :: r) with
    | Some (d, rest) => Some (JNumber d, rest)
    | None => None
    end.
Proof.
  intros H.
  assert (R : (c = 45 \/ 48 <= c <= 57)%N).
  { destruct H as [H|H]; [auto | apply isDigit_range in H; auto]. }
  cbn [parse_value].
  repeat match goal with
         | |- context [N.eqb c ?k] =>
             replace (N.eqb c k) with false by (symmetry; apply N.eqb_neq; lia)
         end.
  reflexivity.
Qed.

End Numbers.

Section Strings.

(** Reading back the spellings of a string up to its closing quote. *)
Lemma parse_chars_spell (cs : list spelling) (rest : str) :
  spellings_ok cs = true ->
  parse_chars (flat_map spell cs ++ 34%N :: rest) = Some (decoded cs, rest).
Proof.
  induction cs as [|x cs IH]; intros Ok.
  - simpl. reflexivity.
  - cbn [spellings_ok forallb] in Ok. apply andb_prop in Ok.
    destruct Ok as [Ox Ocs]. specialize (IH Ocs).
    cbn [flat_map decoded map]. fold (decoded cs).
    rewrite <- app_assoc. unfold unit_of.
    destruct x as [c | e | h1 h2 h3 h4]; cbn [spell spelled] in *.
    + destruct (N.eqb c 34) eqn:Q; [discriminate|].
      destruct (N.eqb c 92) eqn:B; [discriminate|].
      destruct (N.ltb c 32) eqn:C; [discriminate|].
      cbn [List.app parse_chars orb]. rewrite Q, B, C, IH. reflexivity.
    + destruct (unescape e) as [u|] eqn:U; [|discriminate].
      assert (E : N.eqb e 117 = false).
      { destruct (N.eqb e 117) eqn:E; [|reflexivity].
        apply N.eqb_eq in E. subst e. discriminate. }
      cbn [List.app parse_chars N.eqb Pos.eqb]. rewrite E, U, IH. reflexivity.
    + destruct (hex4 h1 h2 h3 h4) as [u|] eqn:H; [|discriminate].
      cbn [List.app parse_chars N.eqb Pos.eqb]. rewrite H, IH. reflexivity.
Qed.

Lemma parse_value_quoted (n : nat) (cs : list spelling) (rest : str) :
  spellings_ok cs = true ->
  parse_value (S n) (quoted cs ++ rest) = Some (JString (decoded cs), rest).
Proof.
  intros Ok. unfold quoted.
  change ((34%N :: flat_map spell cs ++ [34%N]) ++ rest)
    with (34%N :: ((flat_map spell cs ++ [34%N]) ++ rest)).
  rewrite <- app_assoc.
  change ([34%N] ++ rest) with (34%N :: rest).
  cbn [parse_value N.eqb Pos.eqb].
  rewrite (parse_chars_spell cs rest Ok). reflexivity.
Qed.

End Strings.

(** Induction on trees, with the hypothesis for every element of an array
    and every member of an object. *)
Lemma tree_induction (P : tree -> Prop)
  (HNull : P WNull)
  (HTrue : P WTrue)
  (HFalse : P WFalse)
  (HNumber : forall n, P (WNumber n))
  (HString : forall cs, P (WString cs))
  (HArray : forall w items,
      Forall (fun e => P (item e)) items -> P (WArray w items))
  (HObject : forall w members,
      Forall (fun m => P (item (snd m))) members -> P (WObject w members))
  : forall t, P t.
Proof.
  exact
    (fix go (t : tree) : P t :=
       match t with
       | WNull => HNull
       | WTrue => HTrue
       | WFalse => HFalse
       | WNumber n => HNumber n
       | WString cs => HString cs
       | WArray w items =>
           HArray w items
             ((fix all (l : list (padded tree))
                 : Forall (fun e => P (item e)) l :=
                 match l with
                 | [] => Forall_nil _
                 | e :: r => Forall_cons e (go (item e)) (all r)
                 end) items)
       | WObject w members =>
           HObject w members
             ((fix all (l : list (padded (list spelling) * padded tree))
                 : Forall (fun m => P (item (snd m))) l :=
                 match l with
                 | [] => Forall_nil _
                 | m :: r => Forall_cons m (go (item (snd m))) (all r)
                 end) members)
       end).
Qed.

Section ReadBack.

Lemma commas_cons (t : str) (ts : list str) (close : codeunit) (rest : str) :
  commas (t :: ts) ++ close :: rest = t ++ more ts close rest.
Proof.
  destruct ts; cbn [commas more]; rewrite <- app_assoc; reflexivity.
Qed.

Lemma print_array (w : str) (items : list (padded tree)) :
  print (WArray w items)
  = 91%N :: w ++ commas (map element_text items) ++ [93%N].
Proof. reflexivity. Qed.

Lemma print_object (w : str)
      (members : list (padded (list spelling) * padded tree)) :
  print (WObject w members)
  = 123%N :: w ++ commas (map member_text members) ++ [125%N].
Proof. reflexivity. Qed.

Lemma spaces_cons (c : codeunit) (a : str) :
  spaces (c :: a) = true -> isJSONSpace c = true /\ spaces a = true.
Proof. unfold spaces. simpl. intros H. apply andb_prop in H. exact H. Qed.

Lemma stops_after (a : str) (ts : list str) (c : codeunit) (rest : str) :
  spaces a = true -> c = 93%N \/ c = 125%N -> stops (a ++ more ts c rest).
Proof.
  intros A C. destruct a as [|x a].
  - destruct ts; simpl; [|reflexivity].
    destruct C as [-> | ->]; reflexivity.
  - apply spaces_cons in A. destruct A as [A _].
    simpl. unfold isStop. rewrite A. reflexivity.
Qed.

Lemma skip_after (a : str) (ts : list str) (c : codeunit) (rest : str) :
  spaces a = true -> c = 93%N \/ c = 125%N ->
  skip_ws (a ++ more ts c rest) = more ts c rest.
Proof.
  intros A C. rewrite (skip_ws_app _ _ A).
  destruct ts; simpl; [|reflexivity].
  destruct C as [-> | ->]; reflexivity.
Qed.

(** The text of a well-formed tree starts with a unit that is neither white
    space nor a closing bracket. *)
Lemma print_head (t : tree) :
  wellFormed t = true ->
  exists c r, print t = c :: r
              /\ isJSONSpace c = false
              /\ N.eqb c 93 = false /\ N.eqb c 125 = false.
Proof.
  destruct t as [ | | | n | cs | w items | w members ]; intros Ok;
    try (eexists _, _; split; [reflexivity | repeat split]).
  destruct (parse_number_numeral n [] Ok I) as (_ & c & r & E & H).
  exists c, r. split; [exact E|].
  assert (R : (c = 45 \/ 48 <= c <= 57)%N).
  { destruct H as [H|H]; [auto | apply isDigit_range in H; auto]. }
  repeat split; try (apply N.eqb_neq; lia).
  destruct (isJSONSpace c) eqn:Sp; [|reflexivity].
  apply isJSONSpace_cases in Sp. lia.
Qed.

Lemma skip_ws_print (t : tree) (rest : str) :
  wellFormed t = true -> skip_ws (print t ++ rest) = print t ++ rest.
Proof.
  intros Ok. destruct (print_head t Ok) as (c & r & E & Sp & _).
  rewrite E. apply skip_ws_stay, Sp.
Qed.

Lemma element_ok_parts (e : padded tree) :
  element_ok e = true ->
  spaces (before e) = true /\ wellFormed (item e) = true
  /\ spaces (after e) = true.
Proof.
  unfold element_ok. intros H.
  apply andb_prop in H. destruct H as [H A].
  apply andb_prop in H. tauto.
Qed.

Lemma member_ok_parts (m : padded (list spelling) * padded tree) :
  member_ok m = true ->
  spaces (before (fst m)) = true /\ spellings_ok (item (fst m)) = true
  /\ spaces (after (fst m)) = true /\ element_ok (snd m) = true.
Proof.
  unfold member_ok. intros H.
  apply andb_prop in H. destruct H as [H E].
  apply andb_prop in H. destruct H as [H A].
  apply andb_prop in H. tauto.
Qed.

Lemma list_sum_cons (x : nat) (l : list nat) :
  list_sum (x :: l) = (x + list_sum l)%nat.
Proof. reflexivity. Qed.

(** One step of each of the three functions. *)
Lemma parse_elements_step (n : nat) (s : str) :
  parse_elements (S n) s
  = match parse_value n (skip_ws s) with
    | None => None
    | Some (v, rest) =>
        match skip_ws rest with
        | [] => None
        | c :: r =>
            if N.eqb c 44 then
              match parse_elements n r with
              | Some (vs, rest') => Some (v :: vs, rest')
              | None => None
              end
            else if N.eqb c 93 then Some ([v], r)
            else None
        end
    end.
Proof. reflexivity. Qed.

Lemma parse_members_step (n : nat) (r : str) :
  parse_members (S n) (34%N :: r)
  = match parse_chars r with
    | None => None
    | Some (k, s1) =>
        match skip_ws s1 with
        | [] => None
        | c :: s2 =>
            if negb (N.eqb c 58) then None
            else
              match parse_value n (skip_ws s2) with
              | None => None
              | Some (v, s3) =>
                  match skip_ws s3 with
                  | [] => None
                  | c' :: s4 =>
                      if N.eqb c' 44 then
                        match parse_members n (skip_ws s4) with
                        | Some (ms, rest) => Some ((k, v) :: ms, rest)
                        | None => None
                        end
                      else if N.eqb c' 125 then Some ([(k, v)], s4)
                      else None
                  end
              end
        end
    end.
Proof. reflexivity. Qed.

Lemma parse_value_array_step (n : nat) (r : str) :
  parse_value (S n) (91%N :: r)
  = match skip_ws r with
    | [] => None
    | c' :: r' =>
        if N.eqb c' 93 then Some (JArray [], r')
        else match parse_elements n r with
             | Some (vs, rest) => Some (JArray vs, rest)
             | None => None
             end
    end.
Proof. reflexivity. Qed.

Lemma parse_value_object_step (n : nat) (r : str) :
  parse_value (S n) (123%N :: r)
  = match skip_ws r with
    | [] => None
    | c' :: r' =>
        if N.eqb c' 125 then Some (JObject [], r')
        else match parse_members n (skip_ws r) with
             | Some (ms, rest) => Some (mk_object ms, rest)
             | None => None
             end
    end.
Proof. reflexivity. Qed.

Lemma elements_read (items : list (padded tree)) :
  Forall (fun e => reads (item e)) items ->
  forallb element_ok items = true -> items <> [] ->
  forall (fuel : nat) (w rest : str),
    spaces w = true ->
    (list_sum (map (fun e => S (size (item e))) items) < fuel)%nat ->
    parse_elements fuel (w ++ commas (map element_text items) ++ 93%N :: rest)
    = Some (map (fun e => denote (item e)) items, rest).
Proof.
  induction items as [|e items IH]; intros F Ok NE fuel w rest Hw Hf;
    [contradiction|].
  inversion F as [|? ? He Hitems]; subst.
  cbn [forallb] in Ok. apply andb_prop in Ok. destruct Ok as [Oe Oitems].
  destruct (element_ok_parts e Oe) as (Ob & Ot & Oa).
  destruct fuel as [|n]; [inversion Hf|].
  cbn [map] in Hf. rewrite list_sum_cons in Hf.
  cbn [map]. rewrite commas_cons. unfold element_text at 1.
  rewrite parse_elements_step, (skip_ws_app _ _ Hw).
  rewrite <- !app_assoc, (skip_ws_app _ _ Ob), (skip_ws_print _ _ Ot).
  rewrite (He n); [ | lia | apply stops_after; auto ].
  rewrite skip_after by auto.
  destruct items as [|e' items'].
  - reflexivity.
  - cbn [map more]. change (N.eqb 44 44) with true. cbv beta iota.
    change (element_text e' :: map element_text items')
      with (map element_text (e' :: items')).
    rewrite <- (app_nil_l (commas _ ++ _)).
    rewrite (IH Hitems Oitems); [reflexivity | discriminate | reflexivity | lia].
Qed.

Lemma members_read
      (members : list (padded (list spelling) * padded tree)) :
  Forall (fun m => reads (item (snd m))) members ->
  forallb member_ok members = true -> members <> [] ->
  forall (fuel : nat) (rest : str),
    (list_sum (map (fun m => S (size (item (snd m)))) members) < fuel)%nat ->
    parse_members fuel
      (skip_ws (commas (map member_text members) ++ 125%N :: rest))
    = Some (map member_value members, rest).
Proof.
  induction members as [|m members IH]; intros F Ok NE fuel rest Hf;
    [contradiction|].
  inversion F as [|? ? Hm Hmembers]; subst.
  cbn [forallb] in Ok. apply andb_prop in Ok. destruct Ok as [Om Omembers].
  destruct (member_ok_parts m Om) as (Okb & Oks & Oka & Oe).
  destruct (element_ok_parts _ Oe) as (Ob & Ot & Oa).
  destruct fuel as [|n]; [inversion Hf|].
  cbn [map] in Hf. rewrite list_sum_cons in Hf.
  cbn [map]. rewrite commas_cons.
  unfold member_text at 1, key_text, element_text, quoted.
  repeat (rewrite <- app_assoc || rewrite <- app_comm_cons).
  rewrite (skip_ws_app _ _ Okb).
  cbn [List.app]. rewrite (skip_ws_stay 34%N) by reflexivity.
  rewrite parse_members_step, (parse_chars_spell _ _ Oks).
  rewrite (skip_ws_app _ _ Oka), (skip_ws_stay 58%N) by reflexivity.
  change (negb (N.eqb 58 58)) with false. cbv beta iota.
  rewrite (skip_ws_app _ _ Ob), (skip_ws_print _ _ Ot).
  rewrite (Hm n); [ | lia | apply stops_after; auto ].
  rewrite skip_after by auto.
  destruct members as [|m' members'].
  - reflexivity.
  - cbn [map more]. change (N.eqb 44 44) with true. cbv beta iota.
    change (member_text m' :: map member_text members')
      with (map member_text (m' :: members')).
    rewrite (IH Hmembers Omembers); [reflexivity | discriminate | lia].
Qed.

(** Every well-formed tree reads back. *)
Lemma tree_reads (t : tree) : wellFormed t = true -> reads t.
Proof.
  induction t as [ | | | n | cs | w items IH | w members IH ]
    using tree_induction;
    intros Ok fuel rest Hf St;
    (destruct fuel as [|k]; [inversion Hf|]).
  - reflexivity.
  - reflexivity.
  - reflexivity.
  - cbn [wellFormed] in Ok. cbn [print denote].
    destruct (parse_number_numeral n rest Ok St) as (PN & c & r & E & H).
    rewrite E in *.
    change ((c :: r) ++ rest) with (c :: (r ++ rest)) in *.
    rewrite (parse_value_number k c _ H), PN. reflexivity.
  - apply parse_value_quoted. exact Ok.
  - cbn [wellFormed] in Ok. apply andb_prop in Ok. destruct Ok as [Ow Oi].
    change (forallb element_ok items = true) in Oi.
    cbn [size] in Hf.
    assert (R : Forall (fun e => reads (item e)) items).
    { rewrite forallb_forall in Oi. rewrite Forall_forall in *.
      intros e In. apply IH; [exact In|].
      apply (element_ok_parts e (Oi e In)). }
    rewrite print_array. cbn [denote].
    repeat (rewrite <- app_assoc || rewrite <- app_comm_cons).
    cbn [List.app]. rewrite parse_value_array_step.
    destruct items as [|e items].
    + cbn [map commas List.app]. rewrite (skip_ws_app _ _ Ow).
      reflexivity.
    + assert (Hd : exists c r',
                 skip_ws (w ++ commas (map element_text (e :: items))
                            ++ 93%N :: rest) = c :: r'
                 /\ N.eqb c 93 = false).
      { rewrite (skip_ws_app _ _ Ow). cbn [map]. rewrite commas_cons.
        cbn [forallb] in Oi. apply andb_prop in Oi. destruct Oi as [Oe _].
        destruct (element_ok_parts e Oe) as (Ob & Ot & _).
        unfold element_text. rewrite <- !app_assoc, (skip_ws_app _ _ Ob).
        destruct (print_head _ Ot) as (c & r & E & Sp & N93 & _).
        rewrite E, <- !app_comm_cons, (skip_ws_stay c _ Sp). eauto. }
      destruct Hd as (c & r' & E & N93). rewrite E, N93.
      rewrite (elements_read _ R Oi); [reflexivity | discriminate | exact Ow | lia].
  - cbn [wellFormed] in Ok. apply andb_prop in Ok. destruct Ok as [Ow Om].
    change (forallb member_ok members = true) in Om.
    cbn [size] in Hf.
    assert (R : Forall (fun m => reads (item (snd m))) members).
    { rewrite forallb_forall in Om. rewrite Forall_forall in *.
      intros m In. apply IH; [exact In|].
      destruct (member_ok_parts m (Om m In)) as (_ & _ & _ & Oe).
      apply (element_ok_parts _ Oe). }
    rewrite print_object.
    change (denote (WObject w members))
      with (mk_object (map member_value members)).
    repeat (rewrite <- app_assoc || rewrite <- app_comm_cons).
    cbn [List.app]. rewrite parse_value_object_step.
    rewrite (skip_ws_app _ _ Ow).
    destruct members as [|m members].
    + reflexivity.
    + assert (Hd : exists c r',
                 skip_ws (commas (map member_text (m :: members))
                            ++ 125%N :: rest) = c :: r'
                 /\ N.eqb c 125 = false).
      { cbn [map]. rewrite commas_cons.
        cbn [forallb] in Om. apply andb_prop in Om. destruct Om as [Om1 _].
        destruct (member_ok_parts m Om1) as (Okb & _).
        unfold member_text, key_text, quoted.
        repeat (rewrite <- app_assoc || rewrite <- app_comm_cons).
        rewrite (skip_ws_app _ _ Okb). cbn [List.app].
        rewrite (skip_ws_stay 34%N) by reflexivity. eauto. }
      destruct Hd as (c & r' & E & N125).
      rewrite E at 1. rewrite N125.
      rewrite (members_read _ R Om); [reflexivity | discriminate | lia].
Qed.

(** The counter [parse] starts with is enough: a tree has no more nodes
    than its text has code units. *)
Lemma commas_length {A} (f : A -> nat) (g : A -> str) (l : list A) :
  Forall (fun x => (f x <= List.length (g x))%nat) l ->
  (list_sum (map (fun x => S (f x)) l)
   <= S (List.length (commas (map g l))))%nat.
Proof.
  induction l as [|x l IH]; intros F; [simpl; lia|].
  inversion F as [|? ? Hx Hl]; subst.
  specialize (IH Hl).
  cbn [map]. rewrite list_sum_cons.
  destruct l as [|y l].
  - simpl. rewrite app_nil_r. lia.
  - change (commas (g x :: map g (y :: l)))
      with (g x ++ 44%N :: commas (map g (y :: l))).
    rewrite length_app. cbn [List.length]. lia.
Qed.

Lemma size_le_length (t : tree) :
  wellFormed t = true -> (size t <= List.length (print t))%nat.
Proof.
  induction t as [ | | | n | cs | w items IH | w members IH ]
    using tree_induction; intros Ok.
  - simpl. lia.
  - simpl. lia.
  - simpl. lia.
  - cbn [print size].
    destruct (parse_number_numeral n [] Ok I) as (_ & c & r & E & _).
    rewrite E. simpl. lia.
  - simpl. lia.
  - cbn [wellFormed] in Ok. apply andb_prop in Ok. destruct Ok as [_ Oi].
    change (forallb element_ok items = true) in Oi.
    rewrite print_array. cbn [size].
    assert (F : Forall (fun e => (size (item e)
                                  <= List.length (element_text e))%nat) items).
    { rewrite forallb_forall in Oi. rewrite Forall_forall in *.
      intros e In.
      specialize (IH e In (proj1 (proj2 (element_ok_parts e (Oi e In))))).
      unfold element_text. rewrite !length_app. lia. }
    pose proof (commas_length (fun e => size (item e)) element_text items F).
    repeat (rewrite length_app || cbn [List.length]). lia.
  - cbn [wellFormed] in Ok. apply andb_prop in Ok. destruct Ok as [_ Om].
    change (forallb member_ok members = true) in Om.
    rewrite print_object. cbn [size].
    assert (F : Forall (fun m => (size (item (snd m))
                                  <= List.length (member_text m))%nat) members).
    { rewrite forallb_forall in Om. rewrite Forall_forall in *.
      intros m In.
      destruct (member_ok_parts m (Om m In)) as (_ & _ & _ & Oe).
      specialize (IH m In (proj1 (proj2 (element_ok_parts _ Oe)))).
      unfold member_text, element_text.
      repeat (rewrite length_app || cbn [List.length]). lia. }
    pose proof (commas_length (fun m => size (item (snd m))) member_text
                              members F).
    repeat (rewrite length_app || cbn [List.length]). lia.
Qed.

Lemma skip_ws_spaces (w : str) : spaces w = true -> skip_ws w = [].
Proof.
  intros H. rewrite <- (app_nil_r w). apply (skip_ws_app w [] H).
Qed.

(** [JSON.parse] reads every well-formed text, with white space around it
    or not, as the value the text stands for. *)
Lemma parse_print (t : tree) (w1 w2 : str) :
  wellFormed t = true -> spaces w1 = true -> spaces w2 = true ->
  JSON.parse (w1 ++ print t ++ w2) = Some (denote t).
Proof.
  intros Ok H1 H2. unfold JSON.parse.
  rewrite (skip_ws_app _ _ H1), (skip_ws_print _ _ Ok).
  rewrite (tree_reads t Ok).
  - rewrite (skip_ws_spaces _ H2). reflexivity.
  - pose proof (size_le_length t Ok). rewrite !length_app. lia.
  - destruct w2 as [|c w2]; [exact I|].
    apply spaces_cons in H2. simpl. unfold isStop.
    rewrite (proj1 H2). reflexivity.
Qed.

End ReadBack.

(** The properties of an object built member by member: the last member
    of a name gives its value. *)
Section Members.

Lemma str_eqb_refl (k : str) : str_eqb k k = true.
Proof. apply str_eqb_eq. reflexivity. Qed.

Lemma str_eqb_true (x y : str) : str_eqb x y = true -> x = y.
Proof. apply str_eqb_eq. Qed.

Lemma obj_get_set (o : list (str * value)) (k' k : str) (v : value) :
  obj_get (obj_set o k' v) k
  = if str_eqb k' k then Some v else obj_get o k.
Proof.
  induction o as [|[a x] o IH]; simpl.
  - reflexivity.
  - destruct (str_eqb a k') eqn:A; simpl.
    + apply str_eqb_true in A. subst a.
      destruct (str_eqb k' k); reflexivity.
    + rewrite IH. destruct (str_eqb a k) eqn:B; [|reflexivity].
      apply str_eqb_true in B. subst a.
      destruct (str_eqb k' k) eqn:C; [|reflexivity].
      apply str_eqb_true in C. subst k'.
      rewrite str_eqb_refl in A. discriminate.
Qed.

Lemma obj_get_members (ms : list (str * value)) (k : str) :
  forall acc,
    obj_get (fold_left (fun o kv => obj_set o (fst kv) (snd kv)) ms acc) k
    = match find (fun kv => str_eqb (fst kv) k) (rev ms) with
      | Some kv => Some (snd kv)
      | None => obj_get acc k
      end.
Proof.
  induction ms as [|[k' v] ms IH] using rev_ind; intros acc.
  - reflexivity.
  - rewrite fold_left_app, rev_app_distr. cbn [fold_left rev List.app find fst snd].
    rewrite obj_get_set.
    destruct (str_eqb k' k); [reflexivity | apply IH].
Qed.

Lemma find_map {A B} (f : A -> B) (p : B -> bool) (l : list A) :
  find p (map f l) = option_map f (find (fun x => p (f x)) l).
Proof.
  induction l as [|x l IH]; simpl; [reflexivity|].
  destruct (p (f x)); [reflexivity | exact IH].
Qed.

(** The [issues] of the value of a response are the values of the issue
    objects written in it, in their order. *)
Lemma issues_of_denote (t : tree) :
  issues_of (denote t) = option_map (map denote) (response_issues t).
Proof.
  destruct t as [ | | | n | cs | w items | w members ]; try reflexivity.
  change (denote (WObject w members))
    with (mk_object (map member_value members)).
  unfold mk_object, issues_of, response_issues.
  rewrite obj_get_members, <- map_rev, find_map.
  cbn [obj_get fst member_value].
  destruct (find _ (rev members)) as [m|]; [|reflexivity].
  cbn [option_map snd member_value].
  destruct (item (snd m)) as [ | | | n | cs | w' items | w' ms ];
    try reflexivity.
  cbn [denote option_map]. rewrite map_map. reflexivity.
Qed.

End Members.
(** ** Typed results *)

Section TypedResults.

Lemma issues_of_result_value (r : AnalysisResult) :
  issues_of (result_value r) = Some (map issue_value (issues r)).
Proof. reflexivity. Qed.

(** A value that conforms to the schema is an object whose [issues] is an
    array of values that conform to the schema of an issue. *)
Lemma conforms_issues (v : value) :
  conforms analysisSchema v = true ->
  exists props items,
    v = JObject props
    /\ obj_get props (js "issues") = Some (JArray items)
    /\ forallb (conforms issueSchema) items = true.
Proof.
  destruct v as [ | b | d | s | items | props ]; try discriminate.
  intros H. exists props.
  unfold analysisSchema in H.
  cbn [conforms forallb fst snd] in H.
  rewrite !andb_true_r in H.
  apply andb_prop in H. destruct H as [R P].
  apply andb_prop in R. destruct R as [_ R].
  apply andb_prop in R. destruct R as [_ R].
  apply andb_prop in R. destruct R as [R _].
  apply andb_prop in P. destruct P as [_ P].
  apply andb_prop in P. destruct P as [_ P].
  apply andb_prop in P. destruct P as [P _].
  destruct (obj_get props (js "issues")) as [x|]; [|discriminate].
  destruct x as [ | b | d | s | items | props' ]; try discriminate.
  exists items. auto.
Qed.

(** The trees of the two scenarios: well-formed, and standing for the
    results the scenarios name.  The text of the first is the response of
    the specification, character for character. *)
Example roundTripTree_text :
  wellFormed roundTripTree = true
  /\ print roundTripTree = roundTripResponse
  /\ denote roundTripTree = roundTripResult
  /\ result_value roundTripTyped = roundTripResult.
Proof. vm_compute. repeat split. Qed.

Example reviewedTree_text :
  wellFormed reviewedTree = true
  /\ trim reviewedResponse = print reviewedTree
  /\ denote reviewedTree = result_value reviewedTyped
  /\ conforms analysisSchema (denote reviewedTree) = true.
Proof. vm_compute. repeat split. Qed.

(** Numbers are read as JavaScript reads them: to the nearest binary64
    number, ties to even, with signed zeros, subnormal numbers and
    infinities. *)
Example numbers_are_rounded :
  JSON.parse (js "9007199254740993") = Some (JInt 9007199254740992)
  /\ JSON.parse (js "9007199254740995") = Some (JInt 9007199254740996)
  /\ JSON.parse (js "1e-400") = Some (JNumber (Zero false))
  /\ JSON.parse (js "-0.0") = Some (JNumber (Zero true))
  /\ JSON.parse (js "1E400") = Some (JNumber (Infinity false))
  /\ JSON.parse (js "0.1")
     = Some (JNumber (Finite false 3602879701896397 (-55)))
  /\ JSON.parse (js "85.00000000000000001") = Some (JInt 85)
  /\ JSON.parse (js "7.40e+1") = Some (JInt 74)
  /\ JSON.parse (js "5e-324") = Some (JNumber (Finite false 1 (-1074)))
  /\ JSON.parse (js "2.4703282292062327e-324") = Some (JNumber (Zero false))
  /\ JSON.parse (js "2.4703282292062328e-324")
     = Some (JNumber (Finite false 1 (-1074)))
  /\ JSON.parse (js "2.2250738585072014e-308")
     = Some (JNumber (Finite false 1 (-1022)))
  /\ JSON.parse (js "1.7976931348623157e308")
     = Some (JNumber (Finite false 9007199254740991 971))
  /\ JSON.parse (js "1.7976931348623158e308")
     = Some (JNumber (Finite false 9007199254740991 971))
  /\ JSON.parse (js "1.7976931348623159e308")
     = Some (JNumber (Infinity false))
  /\ JInt 92 = JNumber (Finite false 23 2).
Proof. vm_compute. repeat split. Qed.

End TypedResults.

(** A response that is a well-formed text, with white space around it or
    not, ends in success with the value the text stands for. *)
Lemma analyzeCode_reads_response
      (a : Adapter) (s : AppState) (text : str) (t : tree) :
  trim (code s) <> [] ->
  constructs a = true ->
  generateContent a (generateContentRequest s) = Fulfilled (Some text) ->
  wellFormed t = true ->
  trim text = print t ->
  fst (analyzeCode a s)
  = mkState (code s) (language s) false (denote t) None (theme s).
Proof.
  intros Ht Hc Ho Ok Et.
  rewrite (analyzeCode_dispatch a s Ht Hc), Ho. cbn [fst].
  rewrite (resume_parsed text (denote t)); [reflexivity|].
  rewrite Et.
  pose proof (parse_print t [] [] Ok eq_refl eq_refl) as P.
  rewrite app_nil_r in P. exact P.
Qed.

(** C6: in the round-trip scenario the component ends in success holding
    exactly the result of the response, after one request; and every
    response whose text, once trimmed, is a well-formed JSON text of a value
    that conforms to the schema ends in success holding exactly that value:
    the [issues] of the stored result are the values of the issue objects
    written in the response, as many and in the same order. *)
Theorem response_round_trip :
  analyzeCode (stub (Fulfilled (Some roundTripResponse))) pythonState
  = (mkState pythonCode (LString (js "python")) false roundTripResult None Dark,
     [generateContentRequest pythonState])
  /\ forall (a : Adapter) (s : AppState) (text : str) (t : tree),
       trim (code s) <> [] ->
       constructs a = true ->
       generateContent a (generateContentRequest s) = Fulfilled (Some text) ->
       wellFormed t = true ->
       trim text = print t ->
       conforms analysisSchema (denote t) = true ->
       let s' := fst (analyzeCode a s) in
       result s' = denote t
       /\ error s' = None
       /\ isLoading s' = false
       /\ exists written,
            response_issues t = Some written
            /\ issues_of (result s') = Some (map denote written)
            /\ List.length (map denote written) = List.length written
            /\ (forall k, nth_error (map denote written) k
                          = option_map denote (nth_error written k))
            /\ forallb (conforms issueSchema) (map denote written) = true.
Proof.
  split; [vm_compute; reflexivity|].
  intros a s text t Ht Hc Ho Ok Et Cv s'. subst s'.
  rewrite (analyzeCode_reads_response a s text t Ht Hc Ho Ok Et).
  cbn [result error isLoading].
  split; [reflexivity|]. split; [reflexivity|]. split; [reflexivity|].
  destruct (conforms_issues _ Cv) as (props & items & E & G & F).
  assert (I : issues_of (denote t) = Some items).
  { unfold issues_of. rewrite E, G. reflexivity. }
  rewrite issues_of_denote in I |- *.
  destruct (response_issues t) as [written|]; [|discriminate].
  cbn [option_map] in I |- *. inversion I as [I'].
  exists written. repeat split.
  - apply length_map.
  - intros k. apply nth_error_map.
  - rewrite I'. exact F.
Qed.

Lemma response_round_trip_witness :
  (trim (code pythonState) <> []
   /\ wellFormed reviewedTree = true
   /\ trim reviewedResponse = print reviewedTree
   /\ conforms analysisSchema (denote reviewedTree) = true)
  /\ (let s' := fst (analyzeCode (stub (Fulfilled (Some reviewedResponse)))
                                 pythonState) in
      result s' = denote reviewedTree
      /\ error s' = None
      /\ isLoading s' = false
      /\ exists written,
           response_issues reviewedTree = Some written
           /\ issues_of (result s') = Some (map denote written)
           /\ List.length (map denote written) = List.length written
           /\ (forall k, nth_error (map denote written) k
                         = option_map denote (nth_error written k))
           /\ forallb (conforms issueSchema) (map denote written) = true).
Proof.
  split.
  - split; [discriminate | repeat split; vm_compute; reflexivity].
  - apply (proj2 response_round_trip
                 (stub (Fulfilled (Some reviewedResponse))) pythonState
                 reviewedResponse reviewedTree).
    + discriminate.
    + reflexivity.
    + reflexivity.
    + vm_compute. reflexivity.
    + vm_compute. reflexivity.
    + vm_compute. reflexivity.
Defined.

(** * Further properties of the component *)

(** ** The flags in the states the page reaches *)

(** X1: in every state the page reaches, the loading flag is up only while
    there is no result: the loader is never shown next to a result. *)
Theorem loader_never_next_to_result :
  forall (n2s : number -> str) (s2n : str -> number) (es : list Event),
    isLoading (app (run n2s s2n es start)) = true ->
    result (app (run n2s s2n es start)) = JNull.
Proof.
  intros n2s s2n es L.
  destruct (reachable_sound n2s s2n es) as (A & _).
  apply A, L.
Qed.

Lemma loader_never_next_to_result_witness :
  isLoading (app (run noDigits notANumber
                      [CodeEdited pythonCode; Rendered; AnalyzeClicked true]
                      start)) = true
  /\ result (app (run noDigits notANumber
                      [CodeEdited pythonCode; Rendered; AnalyzeClicked true]
                      start)) = JNull.
Proof.
  split.
  - reflexivity.
  - apply (loader_never_next_to_result
             noDigits notANumber
             [CodeEdited pythonCode; Rendered; AnalyzeClicked true]).
    reflexivity.
Defined.

(** X2: when React renders after every event, so that every click finds
    the button as the current state makes it, the message of a failed
    analysis is never next to a result: the failure then always comes after
    the reset of the result, with no other call out. *)
Theorem analysis_failure_never_next_to_result :
  forall (n2s : number -> str) (s2n : str -> number) (es : list Event),
    error (app (run n2s s2n (rerendered es) start))
    = Some analysisFailedMessage ->
    result (app (run n2s s2n (rerendered es) start)) = JNull.
Proof.
  intros n2s s2n es E.
  destruct (run_in_sync n2s s2n es start in_sync_start) as (_ & _ & _ & B).
  apply B, E.
Qed.

Lemma analysis_failure_never_next_to_result_witness :
  error (app (run noDigits notANumber
                  (rerendered [CodeEdited pythonCode; AnalyzeClicked true;
                               Settled 0 Rejected]) start))
  = Some analysisFailedMessage
  /\ result (app (run noDigits notANumber
                      (rerendered [CodeEdited pythonCode; AnalyzeClicked true;
                                   Settled 0 Rejected]) start)) = JNull.
Proof.
  split.
  - reflexivity.
  - apply (analysis_failure_never_next_to_result
             noDigits notANumber
             [CodeEdited pythonCode; AnalyzeClicked true; Settled 0 Rejected]).
    reflexivity.
Defined.

(** X3: through the page the error is either absent, the message of a
    failed analysis or the message of a failed file read.  The empty-input
    message of [analyzeCode] never appears: the button is disabled on the
    very condition that branch tests, in the render the click belongs to. *)
Theorem empty_input_message_unreachable :
  forall (n2s : number -> str) (s2n : str -> number) (es : list Event),
    (error (app (run n2s s2n es start)) = None
     \/ error (app (run n2s s2n es start)) = Some analysisFailedMessage
     \/ error (app (run n2s s2n es start)) = Some fileReadMessage)
    /\ error (app (run n2s s2n es start)) <> Some emptyInputMessage.
Proof.
  intros n2s s2n es.
  destruct (reachable_sound n2s s2n es) as (_ & C & _).
  split; [exact C|].
  destruct C as [C|[C|C]]; rewrite C; discriminate.
Qed.

(** ** [analyzeCode] keeps no history *)

Lemma resume_frame (o : Outcome) (s : AppState) :
  code (analyzeCode_resume o s) = code s
  /\ language (analyzeCode_resume o s) = language s
  /\ theme (analyzeCode_resume o s) = theme s.
Proof.
  destruct o as [|[text|]]; simpl; [repeat split | | repeat split].
  destruct (JSON.parse (trim text)); repeat split.
Qed.

Lemma begin_frame_from (r : AppState) (clientOk : bool) (s : AppState) :
  code (fst (analyzeCode_begin_from r clientOk s)) = code s
  /\ language (fst (analyzeCode_begin_from r clientOk s)) = language s
  /\ theme (fst (analyzeCode_begin_from r clientOk s)) = theme s.
Proof.
  unfold analyzeCode_begin_from.
  destruct (blank (code r)); [repeat split|].
  destruct clientOk; repeat split.
Qed.

(** X4: an attempt that gets past input validation depends on the code, the
    language and the theme only: whatever result, error or flag the state
    held before is discarded, the three cells it reads are left as they
    were, and analysing again against the same adapter gives the same state
    and the same request. *)
Theorem analyzeCode_forgets_history :
  forall (a : Adapter) (s : AppState),
    trim (code s) <> [] ->
    analyzeCode a s
    = analyzeCode a (mkState (code s) (language s) false JNull None (theme s))
    /\ code (fst (analyzeCode a s)) = code s
    /\ language (fst (analyzeCode a s)) = language s
    /\ theme (fst (analyzeCode a s)) = theme s
    /\ analyzeCode a (fst (analyzeCode a s)) = analyzeCode a s.
Proof.
  intros a s Ht.
  assert (Hb := not_blank _ Ht).
  assert (F : code (fst (analyzeCode a s)) = code s
              /\ language (fst (analyzeCode a s)) = language s
              /\ theme (fst (analyzeCode a s)) = theme s).
  { unfold analyzeCode, analyzeCode_begin, analyzeCode_begin_from. rewrite Hb.
    destruct (constructs a); cbn [fst]; [|repeat split].
    destruct (resume_frame (generateContent a (generateContentRequest s))
                (setError None (setResult JNull (setIsLoading true s))))
      as (C & L & T).
    rewrite C, L, T. repeat split. }
  assert (G : forall s', code s' = code s -> language s' = language s ->
                         theme s' = theme s ->
                         analyzeCode a s' = analyzeCode a s).
  { intros s' C L T. unfold analyzeCode, analyzeCode_begin, analyzeCode_begin_from.
    rewrite C, Hb. unfold generateContentRequest, setError, setResult,
      setIsLoading. simpl. rewrite C, L, T. reflexivity. }
  destruct F as (C & L & T).
  repeat split; try assumption.
  - symmetry. apply G; reflexivity.
  - apply G; assumption.
Qed.

Lemma analyzeCode_forgets_history_witness :
  trim (code pythonState) <> []
  /\ (analyzeCode (stub Rejected) pythonState
      = analyzeCode (stub Rejected)
          (mkState (code pythonState) (language pythonState) false JNull None
                   (theme pythonState))
      /\ code (fst (analyzeCode (stub Rejected) pythonState)) = code pythonState
      /\ language (fst (analyzeCode (stub Rejected) pythonState))
         = language pythonState
      /\ theme (fst (analyzeCode (stub Rejected) pythonState))
         = theme pythonState
      /\ analyzeCode (stub Rejected) (fst (analyzeCode (stub Rejected) pythonState))
         = analyzeCode (stub Rejected) pythonState).
Proof.
  split.
  - discriminate.
  - apply (analyzeCode_forgets_history (stub Rejected) pythonState).
    discriminate.
Defined.

(** ** The theme *)

Section Theme.

Variable n2s : number -> str.
Variable s2n : str -> number.

Lemma step_theme (e : Event) (y : System) :
  theme (app (step n2s s2n e y))
  = match e, page y with
    | ThemeToggled, Some _ => theme (toggleTheme (app y))
    | _, _ => theme (app y)
    end.
Proof.
  destruct y as [s pg fl]. destruct e; cbn [step update page app inFlight].
  - destruct pg; reflexivity.
  - destruct pg; reflexivity.
  - destruct pg; reflexivity.
  - destruct pg; cbn [app]; [apply handleFileChange_frame | reflexivity].
  - destruct pg; cbn [app]; [apply readerOnload_frame | reflexivity].
  - destruct pg; reflexivity.
  - destruct pg as [r|]; [|reflexivity].
    destruct (analyzeDisabled r); [reflexivity|].
    pose proof (begin_frame_from r clientOk s) as (_ & _ & T).
    destruct (analyzeCode_begin_from r clientOk s) as [s1 [req|]]; exact T.
  - destruct (nth_error fl i); [|reflexivity].
    destruct pg; cbn [app]; [apply resume_frame | reflexivity].
  - destruct pg; [|reflexivity]. destruct (render n2s s2n s); reflexivity.
Qed.

Lemma run_theme (es : list Event) :
  forall y,
    theme (app (run n2s s2n es y))
    = if Nat.even (toggles n2s s2n es y) then theme (app y)
      else match theme (app y) with Dark => Light | Light => Dark end.
Proof.
  induction es as [|e es IH]; intros y; [reflexivity|].
  rewrite run_cons, IH, step_theme. cbn [toggles].
  destruct e; try reflexivity.
  destruct (page y); [|reflexivity].
  change (1 + toggles n2s s2n es (step n2s s2n ThemeToggled y))%nat
    with (S (toggles n2s s2n es (step n2s s2n ThemeToggled y))).
  rewrite Nat.even_succ, <- Nat.negb_even.
  destruct (Nat.even (toggles n2s s2n es (step n2s s2n ThemeToggled y)));
    simpl; destruct (theme (app y)); reflexivity.
Qed.

(** While the page is there every toggle of the list counts. *)
Lemma toggles_mounted (es : list Event) :
  forall y,
    page (run n2s s2n es y) <> None ->
    toggles n2s s2n es y
    = List.length (filter (fun e => match e with
                                    | ThemeToggled => true
                                    | _ => false
                                    end) es).
Proof.
  induction es as [|e es IH]; intros y M; [reflexivity|].
  rewrite run_cons in M. cbn [toggles filter].
  rewrite (IH _ M).
  assert (P : page y <> None).
  { intros P. apply M. clear IH M.
    assert (G : forall l z, page z = None -> page (run n2s s2n l z) = None).
    { induction l as [|x l IHl]; intros z Z; [exact Z|].
      rewrite run_cons. apply IHl.
      destruct z as [s pg fl]; cbn [page] in Z; subst pg.
      destruct x; cbn [step update page]; try reflexivity.
      destruct (nth_error _ _); reflexivity. }
    apply G.
    destruct y as [s pg fl]; cbn [page] in P; subst pg.
    destruct e; cbn [step update page]; try reflexivity.
    destruct (nth_error _ _); reflexivity. }
  destruct (page y); [|contradiction P; reflexivity].
  destruct e; reflexivity.
Qed.

End Theme.

(** X5: the theme is dark at the start and only the toggle changes it: after
    any events it is dark exactly when the toggle was clicked an even number
    of times (all the toggles of the list, as long as the page is there),
    and two clicks in a row restore the state. *)
Theorem theme_counts_toggles :
  forall (n2s : number -> str) (s2n : str -> number)
         (es : list Event) (s : AppState),
    theme (app (run n2s s2n es start))
    = (if Nat.even (toggles n2s s2n es start) then Dark else Light)
    /\ (page (run n2s s2n es start) <> None ->
        toggles n2s s2n es start
        = List.length (filter (fun e => match e with
                                        | ThemeToggled => true
                                        | _ => false
                                        end) es))
    /\ toggleTheme (toggleTheme s) = s.
Proof.
  intros n2s s2n es s. split; [|split].
  - rewrite run_theme. reflexivity.
  - apply toggles_mounted.
  - destruct s as [c l i r e [|]]; reflexivity.
Qed.

(** ** Uploads *)

Section Uploads.

Variable s : AppState.

Lemma last_app_cons {A} (l1 l2 : list A) (x d : A) :
  last (l1 ++ x :: l2) d = last (x :: l2) d.
Proof.
  induction l1 as [|a l1 IH]; [reflexivity|].
  change ((a :: l1) ++ x :: l2) with (a :: (l1 ++ x :: l2)).
  cbn [last]. destruct (l1 ++ x :: l2) eqn:E; [|exact IH].
  destruct l1; discriminate.
Qed.

Lemma extension_after_dot (base rest : str) :
  extension (base ++ 46%N :: rest) = extension rest.
Proof.
  unfold extension. rewrite split_app_sep.
  rewrite (split_hd_tl 46%N rest) at 1. rewrite last_app_cons.
  rewrite <- split_hd_tl. reflexivity.
Qed.

Lemma split_dotless (name : str) :
  dotless name = true -> split 46%N name = [name].
Proof.
  intros D.
  pose proof (split_prefix 46%N name [] D) as P.
  cbn [split hd tl] in P. rewrite !app_nil_r in P. exact P.
Qed.

Lemma langMap_options (k v : str) :
  own_get langMap k = Some v -> In v (map fst languageOptions).
Proof.
  unfold langMap. simpl.
  repeat match goal with
         | |- context [if ?b then _ else _] => destruct b
         end;
    intros E; inversion E; simpl; tauto.
Qed.

End Uploads.

(** X6: an upload changes the language at once and nothing else; what
    comes later is the code, when the file has been read, or the message of
    a failed read in the error cell when it could not be.  Either update
    commutes with the change of language, and neither touches the result;
    a read that succeeds leaves the error as it was. *)
Theorem upload_changes_only_language :
  forall (file : option str) (text : option str) (s : AppState),
    handleFileChange file s
    = setLanguage (language (handleFileChange file s)) s
    /\ readerOnload text (handleFileChange file s)
       = handleFileChange file (readerOnload text s)
    /\ language (readerOnload text s) = language s
    /\ result (readerOnload text (handleFileChange file s)) = result s
    /\ error (readerOnload text (handleFileChange file s)) = error s
    /\ readerOnerror (handleFileChange file s)
       = handleFileChange file (readerOnerror s)
    /\ readerOnerror (handleFileChange file s)
       = setError (Some fileReadMessage)
                  (setLanguage (language (handleFileChange file s)) s)
    /\ result (readerOnerror (handleFileChange file s)) = result s
    /\ code (readerOnerror (handleFileChange file s)) = code s.
Proof.
  intros file text s.
  destruct s as [c l i r e t].
  destruct file as [name|], text as [x|]; simpl;
    try (repeat split; fail);
    destruct (extension name); try (repeat split; fail);
    destruct (truthy _); repeat split.
Qed.

(** X7: only what follows the last dot of the file name counts: whatever
    comes before a dot is ignored, and a name that ends in a dot changes
    nothing. *)
Theorem upload_uses_last_segment :
  forall (base rest : str) (s : AppState),
    extension (base ++ 46%N :: rest) = extension rest
    /\ handleFileChange (Some (base ++ 46%N :: rest)) s
       = handleFileChange (Some rest) s
    /\ handleFileChange (Some (base ++ [46%N])) s = s.
Proof.
  intros base rest s. split; [apply extension_after_dot|]. split.
  - unfold handleFileChange. rewrite extension_after_dot. reflexivity.
  - unfold handleFileChange. rewrite extension_after_dot. reflexivity.
Qed.

(** X8: a name without a dot is its own extension: a file called as a key
    of the table is, in any case of the letters, selects the language of
    that key. *)
Theorem upload_dotless_name :
  forall (name v : str) (s : AppState),
    dotless name = true ->
    own_get langMap (toLowerCase name) = Some v ->
    extension name = toLowerCase name
    /\ handleFileChange (Some name) s = setLanguage (LString v) s.
Proof.
  intros name v s D G.
  assert (E : extension name = toLowerCase name).
  { unfold extension. rewrite (split_dotless name D). reflexivity. }
  split; [exact E|].
  apply upload_recognized. rewrite E. exact G.
Qed.

Lemma upload_dotless_name_witness :
  (dotless (js "Go") = true
   /\ own_get langMap (toLowerCase (js "Go")) = Some (js "go"))
  /\ (extension (js "Go") = toLowerCase (js "Go")
      /\ handleFileChange (Some (js "Go")) pythonState
         = setLanguage (LString (js "go")) pythonState).
Proof.
  split.
  - split; reflexivity.
  - apply (upload_dotless_name (js "Go") (js "go") pythonState); reflexivity.
Defined.

(** X9: what an upload can do to the language, in full: leave it; set it to
    the value of the row of the extension, which is the value of one of the
    options of the select; or, for the two inherited names, store
    [Object.prototype] or the result of [Object] applied to the previous
    language. *)
Theorem upload_language_cases :
  forall (name : str) (s : AppState),
    handleFileChange (Some name) s = s
    \/ (exists v,
          own_get langMap (extension name) = Some v
          /\ In v (map fst languageOptions)
          /\ handleFileChange (Some name) s = setLanguage (LString v) s)
    \/ (extension name = js "__proto__"
        /\ handleFileChange (Some name) s = setLanguage LObjectPrototype s)
    \/ (extension name = js "constructor"
        /\ handleFileChange (Some name) s
           = setLanguage (setLanguage_looked ObjectConstructor (language s)) s).
Proof.
  intros name s.
  destruct (own_get langMap (extension name)) as [v|] eqn:G.
  - right. left. exists v. split; [reflexivity|].
    split; [apply (langMap_options _ _ G)|].
    apply upload_recognized, G.
  - destruct (str_eqb (extension name) (js "constructor")) eqn:C.
    + right. right. right. apply str_eqb_eq in C. split; [exact C|].
      unfold handleFileChange, langMap_get. rewrite C. reflexivity.
    + destruct (str_eqb (extension name) (js "__proto__")) eqn:P.
      * right. right. left. apply str_eqb_eq in P. split; [exact P|].
        unfold handleFileChange, langMap_get. rewrite P. reflexivity.
      * left. apply upload_unrecognized; [exact G | | ];
          intros X; apply str_eqb_eq in X; congruence.
Qed.

(** ** The prompt determines the code *)

(** X10: for one language, two different codes never give the same prompt,
    hence never the same request. *)
Theorem prompt_tells_codes_apart :
  forall (language c1 c2 : str),
    c1 <> c2 -> prompt language c1 <> prompt language c2.
Proof.
  intros language c1 c2 N E. apply N.
  rewrite !prompt_parts in E.
  apply app_inv_head in E. apply app_inv_head in E. apply app_inv_head in E.
  apply app_inv_tail in E. exact E.
Qed.

Lemma prompt_tells_codes_apart_witness :
  pythonCode <> pythonCode ++ nl
  /\ prompt (js "python") pythonCode <> prompt (js "python") (pythonCode ++ nl).
Proof.
  split.
  - discriminate.
  - apply (prompt_tells_codes_apart (js "python") pythonCode (pythonCode ++ nl)).
    discriminate.
Defined.

(** ** The rendered result *)

Section Rendering.

Variable n2s : number -> str.
Variable s2n : str -> number.

(** A number never throws in a comparison. *)
Lemma gt_number (n : number) (k : Z) :
  gt n2s s2n (Some (JNumber n)) k = Some (exceeds n k).
Proof. reflexivity. Qed.

Lemma borderColorOf_number (n : number) :
  borderColorOf n2s s2n (Some (JNumber n)) = Some (scoreColor n).
Proof.
  unfold borderColorOf, scoreColor. rewrite !gt_number.
  destruct (exceeds n 85); [reflexivity|].
  destruct (exceeds n 60); reflexivity.
Qed.

(** The table of an array: none when it is empty, its rows otherwise. *)
Lemma issuesTableOf_array (items : list value) :
  issuesTableOf n2s s2n (Some (JArray items))
  = match items with
    | [] => Some None
    | _ :: _ => option_map Some (rowsOf items)
    end.
Proof. destruct items as [|x r]; reflexivity. Qed.

Lemma rowsOf_typed (l : list AnalysisIssue) :
  rowsOf (map issue_value l) = Some (map typedRow l).
Proof.
  induction l as [|i l IH]; [reflexivity|].
  cbn [map rowsOf]. rewrite IH. reflexivity.
Qed.

Lemma resultsOf_typed (r : AnalysisResult) :
  resultsOf n2s s2n (result_value r) = Some (Content (typedContent r)).
Proof.
  unfold resultsOf, result_value.
  cbn [truthyValue field obj_get].
  change (str_eqb (js "score") (js "score")) with true.
  change (str_eqb (js "score") (js "summary")) with false.
  change (str_eqb (js "summary") (js "summary")) with true.
  change (str_eqb (js "score") (js "optimizedCode")) with false.
  change (str_eqb (js "summary") (js "optimizedCode")) with false.
  change (str_eqb (js "issues") (js "optimizedCode")) with false.
  change (str_eqb (js "optimizedCode") (js "optimizedCode")) with true.
  change (str_eqb (js "score") (js "issues")) with false.
  change (str_eqb (js "summary") (js "issues")) with false.
  change (str_eqb (js "issues") (js "issues")) with true.
  cbv beta iota.
  rewrite borderColorOf_number, issuesTableOf_array.
  unfold typedContent.
  destruct (issues r) as [|i l] eqn:E; [reflexivity|].
  rewrite <- E. rewrite rowsOf_typed.
  cbn [map]. rewrite E. reflexivity.
Qed.

(** What a value that conforms to the schema holds. *)
Lemma conforms_fields (v : value) :
  conforms analysisSchema v = true ->
  exists d sm items oc,
    field v (js "score") = Some (JNumber d)
    /\ field v (js "summary") = Some (JString sm)
    /\ field v (js "issues") = Some (JArray items)
    /\ forallb (conforms issueSchema) items = true
    /\ field v (js "optimizedCode") = Some (JString oc).
Proof.
  destruct v as [ | b | d | s | items | props ]; try discriminate.
  intros H.
  destruct (conforms_issues _ H) as (props' & items & Ep & G & F).
  inversion Ep; subst props'.
  unfold analysisSchema in H.
  cbn [conforms forallb fst snd] in H.
  rewrite !andb_true_r in H.
  apply andb_prop in H. destruct H as [R P].
  apply andb_prop in R. destruct R as [R1 R].
  apply andb_prop in R. destruct R as [R2 R].
  apply andb_prop in R. destruct R as [_ R4].
  apply andb_prop in P. destruct P as [P1 P].
  apply andb_prop in P. destruct P as [P2 P].
  apply andb_prop in P. destruct P as [_ P4].
  cbn [field].
  destruct (obj_get props (js "score")) as [[ | | d | | | ]|] eqn:S1;
    try discriminate.
  destruct (obj_get props (js "summary")) as [[ | | | sm | | ]|] eqn:S2;
    try discriminate.
  destruct (obj_get props (js "optimizedCode")) as [[ | | | oc | | ]|] eqn:S4;
    try discriminate.
  exists d, sm, items, oc. auto.
Qed.

Lemma conforms_issue_row (x : value) :
  conforms issueSchema x = true -> exists row, rowOf x = Some row.
Proof.
  destruct x as [ | b | d | s | items | props ]; try discriminate.
  intros H. unfold issueSchema in H.
  cbn [conforms forallb fst snd] in H.
  rewrite !andb_true_r in H.
  apply andb_prop in H. destruct H as [R P].
  apply andb_prop in R. destruct R as [R1 R].
  apply andb_prop in R. destruct R as [R2 R3].
  apply andb_prop in P. destruct P as [P1 P].
  apply andb_prop in P. destruct P as [P2 P3].
  unfold rowOf. cbn [field].
  destruct (obj_get props (js "line")) as [[ | | d | | | ]|];
    try discriminate.
  destruct (obj_get props (js "issue")) as [[ | | | i | | ]|];
    try discriminate.
  destruct (obj_get props (js "suggestion")) as [[ | | | g | | ]|];
    try discriminate.
  eexists. reflexivity.
Qed.

Lemma conforms_issue_rows (items : list value) :
  forallb (conforms issueSchema) items = true ->
  exists rows, rowsOf items = Some rows.
Proof.
  induction items as [|x items IH]; intros H; [eexists; reflexivity|].
  cbn [forallb] in H. apply andb_prop in H. destruct H as [Hx Hi].
  destruct (conforms_issue_row x Hx) as (row & R).
  destruct (IH Hi) as (rows & Rs).
  cbn [rowsOf]. rewrite R, Rs. eexists. reflexivity.
Qed.

Lemma rowsOf_null (items : list value) :
  In JNull items -> rowsOf items = None.
Proof.
  induction items as [|x items IH]; intros I; [contradiction|].
  cbn [rowsOf]. destruct I as [->|I]; [reflexivity|].
  rewrite (IH I). destruct (rowOf x); reflexivity.
Qed.

(** A value that has a field is an object, hence truthy. *)
Lemma field_truthy (v : value) (k : str) (x : value) :
  field v k = Some x -> truthyValue v = true.
Proof. destruct v; try discriminate. reflexivity. Qed.

Lemma resultsOf_conforming (v : value) :
  conforms analysisSchema v = true ->
  exists c, resultsOf n2s s2n v = Some (Content c).
Proof.
  intros H.
  destruct (conforms_fields v H) as (d & sm & items & oc & F1 & F2 & F3 & Fi & F4).
  unfold resultsOf. rewrite (field_truthy v _ _ F1), F1, F2, F3, F4.
  rewrite borderColorOf_number, issuesTableOf_array.
  destruct (conforms_issue_rows items Fi) as (rows & R).
  destruct items; [eexists; reflexivity|].
  rewrite R. eexists. reflexivity.
Qed.

(** Without [issues], or with a null one, the render fails. *)
Lemma resultsOf_without_issues (v : value) :
  truthyValue v = true ->
  field v (js "issues") = None \/ field v (js "issues") = Some JNull ->
  resultsOf n2s s2n v = None.
Proof.
  intros T H. unfold resultsOf. rewrite T.
  destruct H as [H|H]; rewrite H;
    destruct (borderColorOf n2s s2n (field v (js "score"))); reflexivity.
Qed.

Lemma resultsOf_null_issue (v : value) (items : list value) :
  field v (js "issues") = Some (JArray items) ->
  In JNull items ->
  resultsOf n2s s2n v = None.
Proof.
  intros F I. unfold resultsOf.
  rewrite (field_truthy v _ _ F), F, issuesTableOf_array, (rowsOf_null items I).
  destruct items; [contradiction|].
  destruct (borderColorOf n2s s2n (field v (js "score"))); reflexivity.
Qed.

Lemma resultsOf_bad_child (v : value) (k : str) (x : value) :
  In k [js "score"; js "summary"; js "optimizedCode"] ->
  field v k = Some x ->
  renderable x = false ->
  resultsOf n2s s2n v = None.
Proof.
  intros K F R. unfold resultsOf. rewrite (field_truthy v _ _ F).
  destruct (borderColorOf n2s s2n (field v (js "score"))); [|reflexivity].
  destruct (issuesTableOf n2s s2n (field v (js "issues"))); [|reflexivity].
  assert (V : validChild (field v k) = false) by (rewrite F; exact R).
  destruct K as [<-|[<-|[<-|[]]]]; rewrite V;
    rewrite ?andb_false_r; reflexivity.
Qed.





End Rendering.



(** The bands of the score colour at their bounds, and just above one: the
    score [85.00000000000000001] of a response is the number 85. *)
Example scoreColor_bounds :
  map scoreColor (map ofZ [100; 86; 85; 61; 60; 0; -5]%Z)
  = map js ["#4CAF50"; "#4CAF50"; "#FFC107"; "#FFC107"; "#F44336";
            "#F44336"; "#F44336"]%string
  /\ scoreColor (numeral_value
                   (mkNumeral false (js "85")
                              (Some (js "00000000000000001")) None))
     = js "#FFC107".
Proof. vm_compute. split; reflexivity. Qed.

(** X12: a result that conforms to the response schema always renders, and
    as results: never the placeholder, never a failed render. *)
Theorem conforming_result_renders :
  forall (n2s : number -> str) (s2n : str -> number) (s : AppState),
    conforms analysisSchema (result s) = true ->
    exists view c,
      render n2s s2n s = Some view
      /\ results (panel view) = Content c
      /\ placeholderShown (panel view) = false.
Proof.
  intros n2s s2n s H.
  destruct (resultsOf_conforming n2s s2n _ H) as (c & R).
  destruct (conforms_fields _ H) as (d & _ & _ & _ & F & _).
  unfold render. rewrite R. eexists _, c.
  split; [reflexivity|]. split; [reflexivity|].
  cbn [panel placeholderShown].
  rewrite (field_truthy _ _ _ F), andb_false_r. reflexivity.
Qed.

Lemma conforming_result_renders_witness :
  conforms analysisSchema (result (setResult roundTripResult pythonState)) = true
  /\ exists view c,
       render noDigits notANumber (setResult roundTripResult pythonState)
       = Some view
       /\ results (panel view) = Content c
       /\ placeholderShown (panel view) = false.
Proof.
  split.
  - reflexivity.
  - apply (conforming_result_renders
             noDigits notANumber
             (setResult roundTripResult pythonState)).
    reflexivity.
Defined.

(** X13: a response that parses to a truthy value with no [issues], or a
    null one (an object without that field, an array, a string, a number),
    is stored as the result with no error, and the render of that state
    fails on [result.issues.length]. *)
Theorem response_without_issues_breaks_render :
  forall (n2s : number -> str) (s2n : str -> number)
         (a : Adapter) (s : AppState) (text : str) (v : value),
    trim (code s) <> [] ->
    constructs a = true ->
    generateContent a (generateContentRequest s) = Fulfilled (Some text) ->
    JSON.parse (trim text) = Some v ->
    truthyValue v = true ->
    field v (js "issues") = None \/ field v (js "issues") = Some JNull ->
    error (fst (analyzeCode a s)) = None
    /\ result (fst (analyzeCode a s)) = v
    /\ render n2s s2n (fst (analyzeCode a s)) = None.
Proof.
  intros n2s s2n a s text v Ht Hc Ho Hp T F.
  rewrite (analyzeCode_dispatch a s Ht Hc), Ho. cbn [fst].
  rewrite (resume_parsed text v _ Hp).
  split; [reflexivity|]. split; [reflexivity|].
  unfold render. cbn [result onFinally setResult setIsLoading].
  rewrite (resultsOf_without_issues n2s s2n v T F). reflexivity.
Qed.

Lemma response_without_issues_breaks_render_witness :
  (trim (code pythonState) <> []
   /\ JSON.parse (trim scoreOnlyResponse) = Some (JObject [(js "score", JInt 90)]))
  /\ (error (fst (analyzeCode (stub (Fulfilled (Some scoreOnlyResponse)))
                              pythonState)) = None
      /\ result (fst (analyzeCode (stub (Fulfilled (Some scoreOnlyResponse)))
                                  pythonState))
         = JObject [(js "score", JInt 90)]
      /\ render noDigits notANumber
                (fst (analyzeCode (stub (Fulfilled (Some scoreOnlyResponse)))
                                  pythonState)) = None).
Proof.
  split.
  - split; [discriminate | vm_compute; reflexivity].
  - apply (response_without_issues_breaks_render
             noDigits notANumber
             (stub (Fulfilled (Some scoreOnlyResponse))) pythonState
             scoreOnlyResponse (JObject [(js "score", JInt 90)])).
    + discriminate.
    + reflexivity.
    + reflexivity.
    + vm_compute. reflexivity.
    + reflexivity.
    + left. reflexivity.
Defined.



(** X15: in every state the page reaches with a call in flight the render
    succeeds and shows the loader, the disabled button with its busy label,
    no results and no placeholder. *)
Theorem loading_view :
  forall (n2s : number -> str) (s2n : str -> number) (es : list Event),
    isLoading (app (run n2s s2n es start)) = true ->
    exists view,
      render n2s s2n (app (run n2s s2n es start)) = Some view
      /\ buttonDisabled view = true
      /\ buttonLabel view = js "Analyzing..."
      /\ loaderShown (panel view) = true
      /\ placeholderShown (panel view) = false
      /\ results (panel view) = Nothing.
Proof.
  intros n2s s2n es L.
  destruct (reachable_sound n2s s2n es) as (A & _).
  destruct (A L) as [R _].
  unfold render. rewrite R, L. eexists. repeat split.
Qed.

Lemma loading_view_witness :
  isLoading (app (run noDigits notANumber
                      [CodeEdited pythonCode; Rendered; AnalyzeClicked true]
                      start)) = true
  /\ exists view,
       render noDigits notANumber
              (app (run noDigits notANumber
                        [CodeEdited pythonCode; Rendered; AnalyzeClicked true]
                        start))
       = Some view
       /\ buttonDisabled view = true
       /\ buttonLabel view = js "Analyzing..."
       /\ loaderShown (panel view) = true
       /\ placeholderShown (panel view) = false
       /\ results (panel view) = Nothing.
Proof.
  split.
  - reflexivity.
  - apply (loading_view noDigits notANumber
                        [CodeEdited pythonCode; Rendered; AnalyzeClicked true]).
    reflexivity.
Defined.

(** X16: a result whose [issues] array holds a null makes the render fail:
    the callback of [map] reads a property of the null item. *)
Theorem null_issue_breaks_render :
  forall (n2s : number -> str) (s2n : str -> number)
         (s : AppState) (items : list value),
    field (result s) (js "issues") = Some (JArray items) ->
    In JNull items ->
    render n2s s2n s = None.
Proof.
  intros n2s s2n s items F I. unfold render.
  rewrite (resultsOf_null_issue n2s s2n _ items F I). reflexivity.
Qed.

Lemma null_issue_breaks_render_witness :
  (field (result (setResult (JObject [(js "issues", JArray [JNull])]) initial))
         (js "issues") = Some (JArray [JNull])
   /\ In JNull [JNull])
  /\ render noDigits notANumber
            (setResult (JObject [(js "issues", JArray [JNull])]) initial)
     = None.
Proof.
  split.
  - split; [reflexivity | left; reflexivity].
  - apply (null_issue_breaks_render
             noDigits notANumber
             (setResult (JObject [(js "issues", JArray [JNull])]) initial)
             [JNull]).
    + reflexivity.
    + left. reflexivity.
Defined.

(** X17: a result whose score, summary or optimized code is an object, or an
    array holding one, makes the render fail: React takes no plain object as
    a child. *)
Theorem object_child_breaks_render :
  forall (n2s : number -> str) (s2n : str -> number)
         (s : AppState) (k : str) (x : value),
    In k [js "score"; js "summary"; js "optimizedCode"] ->
    field (result s) k = Some x ->
    renderable x = false ->
    render n2s s2n s = None.
Proof.
  intros n2s s2n s k x K F R. unfold render.
  rewrite (resultsOf_bad_child n2s s2n _ k x K F R). reflexivity.
Qed.

Lemma object_child_breaks_render_witness :
  (In (js "summary") [js "score"; js "summary"; js "optimizedCode"]
   /\ field (result (setResult
                       (JObject [(js "summary", JObject []);
                                 (js "issues", JArray [])]) initial))
            (js "summary") = Some (JObject [])
   /\ renderable (JObject []) = false)
  /\ render noDigits notANumber
            (setResult (JObject [(js "summary", JObject []);
                                 (js "issues", JArray [])]) initial)
     = None.
Proof.
  split.
  - split; [right; left; reflexivity | split; reflexivity].
  - apply (object_child_breaks_render
             noDigits notANumber
             (setResult (JObject [(js "summary", JObject []);
                                  (js "issues", JArray [])]) initial)
             (js "summary") (JObject [])).
    + right. left. reflexivity.
    + reflexivity.
    + reflexivity.
Defined.

(** ** Clicks, edits and errors *)

(** X18: in every state the page reaches, a button shown enabled belongs to
    a render that succeeded and showed code that is not blank, and a click
    on it starts an analysis of the code and the language of that render,
    whatever the cells hold by now: the result and the error are reset, the
    flag is raised and one more request, built from what the page showed,
    is in flight; or, when the client cannot be constructed, the attempt
    fails at once and nothing is sent. *)
Theorem enabled_click_starts_analysis :
  forall (n2s : number -> str) (s2n : str -> number)
         (es : list Event) (clientOk : bool) (r : AppState),
    page (run n2s s2n es start) = Some r ->
    analyzeDisabled r = false ->
    let y := run n2s s2n es start in
    render n2s s2n r <> None
    /\ trim (code r) <> []
    /\ step n2s s2n (AnalyzeClicked clientOk) y
       = if clientOk
         then mkSystem (mkState (code (app y)) (language (app y)) true JNull
                                None (theme (app y)))
                       (Some r) (inFlight y ++ [generateContentRequest r])
         else mkSystem (mkState (code (app y)) (language (app y)) false JNull
                                (Some analysisFailedMessage) (theme (app y)))
                       (Some r) (inFlight y).
Proof.
  intros n2s s2n es clientOk r P D y.
  destruct (reachable_sound n2s s2n es) as (_ & _ & C).
  split; [apply C, P|]. split.
  - unfold analyzeDisabled in D. apply orb_false_elim in D.
    destruct D as [_ Bl]. intros T. apply blank_trim in T. congruence.
  - subst y. rewrite (click_enabled n2s s2n clientOk _ r P D).
    destruct clientOk; reflexivity.
Qed.

Lemma enabled_click_starts_analysis_witness :
  (page (run noDigits notANumber
             [CodeEdited pythonCode; Rendered; CodeEdited (js "x = 1")] start)
   = Some (setCode pythonCode initial)
   /\ analyzeDisabled (setCode pythonCode initial) = false)
  /\ (let y := run noDigits notANumber
                   [CodeEdited pythonCode; Rendered; CodeEdited (js "x = 1")]
                   start in
      render noDigits notANumber (setCode pythonCode initial) <> None
      /\ trim (code (setCode pythonCode initial)) <> []
      /\ step noDigits notANumber (AnalyzeClicked true) y
         = if true
           then mkSystem (mkState (code (app y)) (language (app y)) true JNull
                                  None (theme (app y)))
                         (Some (setCode pythonCode initial))
                         (inFlight y
                          ++ [generateContentRequest
                                (setCode pythonCode initial)])
           else mkSystem (mkState (code (app y)) (language (app y)) false
                                  JNull (Some analysisFailedMessage)
                                  (theme (app y)))
                         (Some (setCode pythonCode initial)) (inFlight y)).
Proof.
  split.
  - split; reflexivity.
  - apply (enabled_click_starts_analysis
             noDigits notANumber
             [CodeEdited pythonCode; Rendered; CodeEdited (js "x = 1")]
             true (setCode pythonCode initial)).
    + reflexivity.
    + reflexivity.
Defined.

(** X19: the request is fixed when it is sent and its response is stored
    whatever was typed meanwhile: an edit during the call leaves the
    requests in flight as they were, and the settled call stores the parsed
    result next to the new code and leaves the list of calls in flight. *)
Theorem response_stored_whatever_was_edited :
  forall (n2s : number -> str) (s2n : str -> number)
         (es : list Event) (edited text : str) (v : value),
    isLoading (app (run n2s s2n es start)) = true ->
    JSON.parse (trim text) = Some v ->
    inFlight (run n2s s2n (es ++ [CodeEdited edited]) start)
    = inFlight (run n2s s2n es start)
    /\ (let y := run n2s s2n
                     (es ++ [CodeEdited edited;
                             Settled 0 (Fulfilled (Some text))]) start in
        code (app y) = edited
        /\ result (app y) = v
        /\ isLoading (app y) = false
        /\ inFlight y = tl (inFlight (run n2s s2n es start))).
Proof.
  intros n2s s2n es edited text v L P.
  destruct (reachable_sound n2s s2n es) as (A & _).
  destruct (A L) as (_ & F & M).
  rewrite !run_app.
  destruct (run n2s s2n es start) as [s [r|] fl];
    [|contradiction M; reflexivity].
  cbn [app page inFlight] in *.
  destruct fl as [|q fl]; [contradiction F; reflexivity|].
  cbn [run fold_left step update page app inFlight nth_error remove_nth tl].
  unfold analyzeCode_resume. rewrite P.
  repeat split.
Qed.

Lemma response_stored_whatever_was_edited_witness :
  (isLoading (app (run noDigits notANumber
                       [CodeEdited pythonCode; Rendered; AnalyzeClicked true]
                       start)) = true
   /\ JSON.parse (trim roundTripResponse) = Some roundTripResult)
  /\ (inFlight (run noDigits notANumber
                    ([CodeEdited pythonCode; Rendered; AnalyzeClicked true]
                     ++ [CodeEdited (js "x = 1")]) start)
      = inFlight (run noDigits notANumber
                      [CodeEdited pythonCode; Rendered; AnalyzeClicked true]
                      start)
      /\ (let y := run noDigits notANumber
                       ([CodeEdited pythonCode; Rendered; AnalyzeClicked true]
                        ++ [CodeEdited (js "x = 1");
                            Settled 0 (Fulfilled (Some roundTripResponse))])
                       start in
          code (app y) = js "x = 1"
          /\ result (app y) = roundTripResult
          /\ isLoading (app y) = false
          /\ inFlight y
             = tl (inFlight (run noDigits notANumber
                                 [CodeEdited pythonCode; Rendered;
                                  AnalyzeClicked true] start)))).
Proof.
  split.
  - split; [reflexivity | vm_compute; reflexivity].
  - apply (response_stored_whatever_was_edited
             noDigits notANumber
             [CodeEdited pythonCode; Rendered; AnalyzeClicked true]
             (js "x = 1") roundTripResponse roundTripResult).
    + reflexivity.
    + vm_compute. reflexivity.
Defined.


